(** * The virtual cursor overlay controller of obsidian-virtual-cursor

    A shallow embedding of the class [VirtualCursorView] (the CodeMirror view
    plugin that paints a second caret) and the properties its specification
    states about it.

    The controller is an object with mutable fields that also mutates the
    page: the overlay element, the window's timeout table, the listener
    registrations and the editor's measure queue.  All of that is gathered in
    one record, [World], and every method is a function on it.  What the
    editor answers when asked (focus, selection, coordinates) is the record
    [EditorView], passed to a method at each call, since it changes outside the
    controller's control. *)

From Stdlib Require Import ZArith List Bool String Lia.
From Stdlib Require Import DecimalString.
Import ListNotations.
Open Scope Z_scope.
Open Scope string_scope.

(** ** Constants of the module *)

Definition VIRTUAL_CURSOR_CLASS : string := "virtual-cursor".
Definition VIRTUAL_CURSOR_PHASE_CLASS : string := "cursor-phase".
Definition VIRTUAL_CURSOR_ENABLED_CLASS : string := "virtual-cursor-enabled".
Definition PHASE_DELAY : Z := 200.

(** ** Completions

    The one host call that may throw is [coordsAtPos]; a completion is either
    a normal value or a thrown exception. *)

Inductive Completion (A : Type) : Type :=
| Normal (a : A)
| Throw.
Arguments Normal {A} a.
Arguments Throw {A}.

Definition bind {A B : Type} (c : Completion A) (k : A -> Completion B)
  : Completion B :=
  match c with
  | Normal a => k a
  | Throw => Throw
  end.

(** [try { c } catch (_error) { h }] *)
Definition try_catch {A : Type} (c : Completion A) (h : Completion A)
  : Completion A :=
  match c with
  | Normal a => Normal a
  | Throw => h
  end.

Notation "x <- c ;; k" := (bind c (fun x => k))
  (at level 61, c at next level, right associativity).

(** ** Options of a measurement *)

(** [interface UpdateOptions]: both fields are optional. *)
Record UpdateOptions : Type := {
  opt_forcePosition : option bool;
  opt_restartPhase : option bool
}.

(** [interface MeasurementOptions] *)
Record MeasurementOptions : Type := {
  forcePosition : bool;
  restartPhase : bool
}.

(** Truthiness of an optional boolean, as [if (options.forcePosition)] tests
    it: [undefined] and [false] are falsy. *)
Definition truthy (b : option bool) : bool :=
  match b with
  | Some true => true
  | _ => false
  end.

(** The default argument [options: UpdateOptions = {}]. *)
Definition no_options : UpdateOptions :=
  {| opt_forcePosition := None; opt_restartPhase := None |}.

(** The fallback of [this.pendingOptions ?? {...}]. *)
Definition default_options : MeasurementOptions :=
  {| forcePosition := false; restartPhase := false |}.

(** [ViewUpdate]: the five change flags the handler reads. *)
Record ViewUpdate : Type := {
  docChanged : bool;
  selectionSet : bool;
  viewportChanged : bool;
  geometryChanged : bool;
  focusChanged : bool
}.

(** ** Class lists *)

Definition classList_remove (c : string) (l : list string) : list string :=
  filter (fun x => negb (String.eqb x c)) l.

Definition classList_contains (c : string) (l : list string) : bool :=
  existsb (String.eqb c) l.

Definition classList_add (c : string) (l : list string) : list string :=
  if classList_contains c l then l else l ++ [c].

(** ** Listeners *)

Inductive EventTarget : Type :=
| OwnerDocument   (* view.dom.ownerDocument *)
| ScrollDOM       (* view.scrollDOM *)
| DefaultView     (* root.defaultView *)
| ViewDOM.        (* view.dom *)

Definition EventTarget_eqb (a b : EventTarget) : bool :=
  match a, b with
  | OwnerDocument, OwnerDocument => true
  | ScrollDOM, ScrollDOM => true
  | DefaultView, DefaultView => true
  | ViewDOM, ViewDOM => true
  | _, _ => false
  end.

(** The controller registers one handler per target and event type, so a
    registration is identified by that pair. *)
Definition Listener : Type := (EventTarget * string)%type.

Definition Listener_eqb (a b : Listener) : bool :=
  EventTarget_eqb (fst a) (fst b) && String.eqb (snd a) (snd b).

Definition addEventListener (l : Listener) (ls : list Listener) : list Listener :=
  if existsb (Listener_eqb l) ls then ls else ls ++ [l].

Definition removeEventListener (l : Listener) (ls : list Listener) : list Listener :=
  filter (fun x => negb (Listener_eqb x l)) ls.

(** ** The world: the controller's fields and the part of the page it mutates *)

Record World : Type := {
  (* this.cursor: the overlay element *)
  cursor_classList : list string;
  cursor_display : string;
  cursor_position : string;
  cursor_left : string;
  cursor_top : string;
  cursor_height : string;
  cursor_attached : bool;
  (* the other fields of the controller *)
  phaseTimer : option Z;
  lastHead : option Z;
  resizeObserver : option bool;       (* Some b: an observer, observing iff b *)
  cleanup : list Listener;            (* each closure removes one listener *)
  scheduled : bool;
  pendingOptions : option MeasurementOptions;
  (* the window's timeouts, as far as the controller sets them *)
  now : Z;
  timers : list (Z * Z);              (* (id, time at which it is due) *)
  nextTimerId : Z;
  (* the page and the editor *)
  listeners : list Listener;
  dom_classList : list string;        (* view.dom.classList *)
  measureRequests : nat               (* requests queued by view.requestMeasure *)
}.

Definition set_cursor_classList (x : list string) (w : World) : World :=
  {| cursor_classList := x; cursor_display := cursor_display w;
     cursor_position := cursor_position w; cursor_left := cursor_left w;
     cursor_top := cursor_top w; cursor_height := cursor_height w;
     cursor_attached := cursor_attached w; phaseTimer := phaseTimer w;
     lastHead := lastHead w; resizeObserver := resizeObserver w;
     cleanup := cleanup w; scheduled := scheduled w;
     pendingOptions := pendingOptions w; now := now w; timers := timers w;
     nextTimerId := nextTimerId w; listeners := listeners w;
     dom_classList := dom_classList w; measureRequests := measureRequests w |}.

Definition set_cursor_display (x : string) (w : World) : World :=
  {| cursor_classList := cursor_classList w; cursor_display := x;
     cursor_position := cursor_position w; cursor_left := cursor_left w;
     cursor_top := cursor_top w; cursor_height := cursor_height w;
     cursor_attached := cursor_attached w; phaseTimer := phaseTimer w;
     lastHead := lastHead w; resizeObserver := resizeObserver w;
     cleanup := cleanup w; scheduled := scheduled w;
     pendingOptions := pendingOptions w; now := now w; timers := timers w;
     nextTimerId := nextTimerId w; listeners := listeners w;
     dom_classList := dom_classList w; measureRequests := measureRequests w |}.

Definition set_cursor_left (x : string) (w : World) : World :=
  {| cursor_classList := cursor_classList w; cursor_display := cursor_display w;
     cursor_position := cursor_position w; cursor_left := x;
     cursor_top := cursor_top w; cursor_height := cursor_height w;
     cursor_attached := cursor_attached w; phaseTimer := phaseTimer w;
     lastHead := lastHead w; resizeObserver := resizeObserver w;
     cleanup := cleanup w; scheduled := scheduled w;
     pendingOptions := pendingOptions w; now := now w; timers := timers w;
     nextTimerId := nextTimerId w; listeners := listeners w;
     dom_classList := dom_classList w; measureRequests := measureRequests w |}.

Definition set_cursor_top (x : string) (w : World) : World :=
  {| cursor_classList := cursor_classList w; cursor_display := cursor_display w;
     cursor_position := cursor_position w; cursor_left := cursor_left w;
     cursor_top := x; cursor_height := cursor_height w;
     cursor_attached := cursor_attached w; phaseTimer := phaseTimer w;
     lastHead := lastHead w; resizeObserver := resizeObserver w;
     cleanup := cleanup w; scheduled := scheduled w;
     pendingOptions := pendingOptions w; now := now w; timers := timers w;
     nextTimerId := nextTimerId w; listeners := listeners w;
     dom_classList := dom_classList w; measureRequests := measureRequests w |}.

Definition set_cursor_height (x : string) (w : World) : World :=
  {| cursor_classList := cursor_classList w; cursor_display := cursor_display w;
     cursor_position := cursor_position w; cursor_left := cursor_left w;
     cursor_top := cursor_top w; cursor_height := x;
     cursor_attached := cursor_attached w; phaseTimer := phaseTimer w;
     lastHead := lastHead w; resizeObserver := resizeObserver w;
     cleanup := cleanup w; scheduled := scheduled w;
     pendingOptions := pendingOptions w; now := now w; timers := timers w;
     nextTimerId := nextTimerId w; listeners := listeners w;
     dom_classList := dom_classList w; measureRequests := measureRequests w |}.

Definition set_cursor_attached (x : bool) (w : World) : World :=
  {| cursor_classList := cursor_classList w; cursor_display := cursor_display w;
     cursor_position := cursor_position w; cursor_left := cursor_left w;
     cursor_top := cursor_top w; cursor_height := cursor_height w;
     cursor_attached := x; phaseTimer := phaseTimer w;
     lastHead := lastHead w; resizeObserver := resizeObserver w;
     cleanup := cleanup w; scheduled := scheduled w;
     pendingOptions := pendingOptions w; now := now w; timers := timers w;
     nextTimerId := nextTimerId w; listeners := listeners w;
     dom_classList := dom_classList w; measureRequests := measureRequests w |}.

Definition set_phaseTimer (x : option Z) (w : World) : World :=
  {| cursor_classList := cursor_classList w; cursor_display := cursor_display w;
     cursor_position := cursor_position w; cursor_left := cursor_left w;
     cursor_top := cursor_top w; cursor_height := cursor_height w;
     cursor_attached := cursor_attached w; phaseTimer := x;
     lastHead := lastHead w; resizeObserver := resizeObserver w;
     cleanup := cleanup w; scheduled := scheduled w;
     pendingOptions := pendingOptions w; now := now w; timers := timers w;
     nextTimerId := nextTimerId w; listeners := listeners w;
     dom_classList := dom_classList w; measureRequests := measureRequests w |}.

Definition set_lastHead (x : option Z) (w : World) : World :=
  {| cursor_classList := cursor_classList w; cursor_display := cursor_display w;
     cursor_position := cursor_position w; cursor_left := cursor_left w;
     cursor_top := cursor_top w; cursor_height := cursor_height w;
     cursor_attached := cursor_attached w; phaseTimer := phaseTimer w;
     lastHead := x; resizeObserver := resizeObserver w;
     cleanup := cleanup w; scheduled := scheduled w;
     pendingOptions := pendingOptions w; now := now w; timers := timers w;
     nextTimerId := nextTimerId w; listeners := listeners w;
     dom_classList := dom_classList w; measureRequests := measureRequests w |}.

Definition set_resizeObserver (x : option bool) (w : World) : World :=
  {| cursor_classList := cursor_classList w; cursor_display := cursor_display w;
     cursor_position := cursor_position w; cursor_left := cursor_left w;
     cursor_top := cursor_top w; cursor_height := cursor_height w;
     cursor_attached := cursor_attached w; phaseTimer := phaseTimer w;
     lastHead := lastHead w; resizeObserver := x;
     cleanup := cleanup w; scheduled := scheduled w;
     pendingOptions := pendingOptions w; now := now w; timers := timers w;
     nextTimerId := nextTimerId w; listeners := listeners w;
     dom_classList := dom_classList w; measureRequests := measureRequests w |}.

Definition set_scheduled (x : bool) (w : World) : World :=
  {| cursor_classList := cursor_classList w; cursor_display := cursor_display w;
     cursor_position := cursor_position w; cursor_left := cursor_left w;
     cursor_top := cursor_top w; cursor_height := cursor_height w;
     cursor_attached := cursor_attached w; phaseTimer := phaseTimer w;
     lastHead := lastHead w; resizeObserver := resizeObserver w;
     cleanup := cleanup w; scheduled := x;
     pendingOptions := pendingOptions w; now := now w; timers := timers w;
     nextTimerId := nextTimerId w; listeners := listeners w;
     dom_classList := dom_classList w; measureRequests := measureRequests w |}.

Definition set_pendingOptions (x : option MeasurementOptions) (w : World) : World :=
  {| cursor_classList := cursor_classList w; cursor_display := cursor_display w;
     cursor_position := cursor_position w; cursor_left := cursor_left w;
     cursor_top := cursor_top w; cursor_height := cursor_height w;
     cursor_attached := cursor_attached w; phaseTimer := phaseTimer w;
     lastHead := lastHead w; resizeObserver := resizeObserver w;
     cleanup := cleanup w; scheduled := scheduled w;
     pendingOptions := x; now := now w; timers := timers w;
     nextTimerId := nextTimerId w; listeners := listeners w;
     dom_classList := dom_classList w; measureRequests := measureRequests w |}.

Definition set_now (x : Z) (w : World) : World :=
  {| cursor_classList := cursor_classList w; cursor_display := cursor_display w;
     cursor_position := cursor_position w; cursor_left := cursor_left w;
     cursor_top := cursor_top w; cursor_height := cursor_height w;
     cursor_attached := cursor_attached w; phaseTimer := phaseTimer w;
     lastHead := lastHead w; resizeObserver := resizeObserver w;
     cleanup := cleanup w; scheduled := scheduled w;
     pendingOptions := pendingOptions w; now := x; timers := timers w;
     nextTimerId := nextTimerId w; listeners := listeners w;
     dom_classList := dom_classList w; measureRequests := measureRequests w |}.

Definition set_timers (x : list (Z * Z)) (w : World) : World :=
  {| cursor_classList := cursor_classList w; cursor_display := cursor_display w;
     cursor_position := cursor_position w; cursor_left := cursor_left w;
     cursor_top := cursor_top w; cursor_height := cursor_height w;
     cursor_attached := cursor_attached w; phaseTimer := phaseTimer w;
     lastHead := lastHead w; resizeObserver := resizeObserver w;
     cleanup := cleanup w; scheduled := scheduled w;
     pendingOptions := pendingOptions w; now := now w; timers := x;
     nextTimerId := nextTimerId w; listeners := listeners w;
     dom_classList := dom_classList w; measureRequests := measureRequests w |}.

Definition set_nextTimerId (x : Z) (w : World) : World :=
  {| cursor_classList := cursor_classList w; cursor_display := cursor_display w;
     cursor_position := cursor_position w; cursor_left := cursor_left w;
     cursor_top := cursor_top w; cursor_height := cursor_height w;
     cursor_attached := cursor_attached w; phaseTimer := phaseTimer w;
     lastHead := lastHead w; resizeObserver := resizeObserver w;
     cleanup := cleanup w; scheduled := scheduled w;
     pendingOptions := pendingOptions w; now := now w; timers := timers w;
     nextTimerId := x; listeners := listeners w;
     dom_classList := dom_classList w; measureRequests := measureRequests w |}.

Definition set_listeners (x : list Listener) (w : World) : World :=
  {| cursor_classList := cursor_classList w; cursor_display := cursor_display w;
     cursor_position := cursor_position w; cursor_left := cursor_left w;
     cursor_top := cursor_top w; cursor_height := cursor_height w;
     cursor_attached := cursor_attached w; phaseTimer := phaseTimer w;
     lastHead := lastHead w; resizeObserver := resizeObserver w;
     cleanup := cleanup w; scheduled := scheduled w;
     pendingOptions := pendingOptions w; now := now w; timers := timers w;
     nextTimerId := nextTimerId w; listeners := x;
     dom_classList := dom_classList w; measureRequests := measureRequests w |}.

Definition set_dom_classList (x : list string) (w : World) : World :=
  {| cursor_classList := cursor_classList w; cursor_display := cursor_display w;
     cursor_position := cursor_position w; cursor_left := cursor_left w;
     cursor_top := cursor_top w; cursor_height := cursor_height w;
     cursor_attached := cursor_attached w; phaseTimer := phaseTimer w;
     lastHead := lastHead w; resizeObserver := resizeObserver w;
     cleanup := cleanup w; scheduled := scheduled w;
     pendingOptions := pendingOptions w; now := now w; timers := timers w;
     nextTimerId := nextTimerId w; listeners := listeners w;
     dom_classList := x; measureRequests := measureRequests w |}.

Definition set_measureRequests (x : nat) (w : World) : World :=
  {| cursor_classList := cursor_classList w; cursor_display := cursor_display w;
     cursor_position := cursor_position w; cursor_left := cursor_left w;
     cursor_top := cursor_top w; cursor_height := cursor_height w;
     cursor_attached := cursor_attached w; phaseTimer := phaseTimer w;
     lastHead := lastHead w; resizeObserver := resizeObserver w;
     cleanup := cleanup w; scheduled := scheduled w;
     pendingOptions := pendingOptions w; now := now w; timers := timers w;
     nextTimerId := nextTimerId w; listeners := listeners w;
     dom_classList := dom_classList w; measureRequests := x |}.

(** ** The window's timeouts *)

(** [window.setTimeout(callback, delay)]: a fresh id, due [delay] from now.
    Every timeout the controller sets has the same callback,
    [phaseTimerCallback] below, so the table does not store it. *)
Definition setTimeout (delay : Z) (w : World) : Z * World :=
  let id := nextTimerId w in
  (id, set_nextTimerId (id + 1) (set_timers (timers w ++ [(id, now w + delay)]) w)).

(** [window.clearTimeout(id)]: a cancelled timeout never fires. *)
Definition clearTimeout (id : Z) (w : World) : World :=
  set_timers (filter (fun t => negb (Z.eqb (fst t) id)) (timers w)) w.

(** [view.requestMeasure(this.measure)] *)
Definition requestMeasure (w : World) : World :=
  set_measureRequests (S (measureRequests w)) w.

(** ** Methods that do not look at the editor *)

(** [private hideCursor()] *)
Definition hideCursor (w : World) : World :=
  let w := set_cursor_display "none" w in
  let w := set_cursor_classList
             (classList_remove VIRTUAL_CURSOR_PHASE_CLASS (cursor_classList w)) w in
  match phaseTimer w with
  | Some id => set_phaseTimer None (clearTimeout id w)
  | None => w
  end.

(** The callback of the timeout set in [restartPhaseTimer]. *)
Definition phaseTimerCallback (w : World) : World :=
  let w := set_cursor_classList
             (classList_add VIRTUAL_CURSOR_PHASE_CLASS (cursor_classList w)) w in
  set_phaseTimer None w.

(** [private restartPhaseTimer()] *)
Definition restartPhaseTimer (w : World) : World :=
  let w := set_cursor_classList
             (classList_remove VIRTUAL_CURSOR_PHASE_CLASS (cursor_classList w)) w in
  let w := match phaseTimer w with
           | Some id => clearTimeout id w
           | None => w
           end in
  let (id, w) := setTimeout PHASE_DELAY w in
  set_phaseTimer (Some id) w.

(** The window runs the timeout [id]: possible once it is due; the entry
    leaves the table and the callback runs. *)
Definition fireTimeout (id : Z) (w : World) : option World :=
  match find (fun t => Z.eqb (fst t) id) (timers w) with
  | Some (_, due) =>
      if Z.leb due (now w)
      then Some (phaseTimerCallback (clearTimeout id w))
      else None
  | None => None
  end.

(** ** The editor and the measurement cycle

    Coordinates are JavaScript numbers.  The controller only subtracts them
    and prints them in a template literal, so the development is parametric
    in the type of numbers, with its subtraction and its printing as the
    two methods of a class. *)

Class Number (num : Type) : Type := {
  num_sub : num -> num -> num;
  num_to_string : num -> string
}.

Section Controller.

Variable num : Type.
Context {N : Number num}.

(** [Rect] of [@codemirror/view] *)
Record Rect : Type := {
  rect_left : num;
  rect_right : num;
  rect_top : num;
  rect_bottom : num
}.

(** [DOMRect] *)
Record DOMRect : Type := {
  dom_x : num;
  dom_y : num;
  dom_width : num;
  dom_height : num;
  dom_top : num;
  dom_right : num;
  dom_bottom : num;
  dom_left : num
}.

(** [interface CursorMeasurement] *)
Record CursorMeasurement : Type := {
  visible : bool;
  rect : option Rect;
  hostRect : option DOMRect;
  head : Z;
  options : MeasurementOptions
}.

(** What the controller reads from the [EditorView] at the time of a call. *)
Record EditorView : Type := {
  hasFocus : bool;
  selection_main_empty : bool;        (* view.state.selection.main.empty *)
  selection_main_head : Z;            (* view.state.selection.main.head *)
  coordsAtPos : Z -> Z -> Completion (option Rect);
  scrollDOM_getBoundingClientRect : DOMRect;
  defaultView : bool                  (* root.defaultView is not null *)
}.

(** [function isCollapsedSelection(view)] *)
Definition isCollapsedSelection (view : EditorView) : bool :=
  selection_main_empty view.

(** [private scheduleMeasurement(options: UpdateOptions = {})].  The object
    held in [pendingOptions] is updated in place; nothing else holds it until
    [readMeasurement] takes it out and resets the field, so it is a value
    here. *)
Definition scheduleMeasurement (view : EditorView) (opts : UpdateOptions)
    (w : World) : World :=
  if negb (hasFocus view) || negb (isCollapsedSelection view) then
    let w := hideCursor w in
    set_lastHead None w
  else
    let current :=
      match pendingOptions w with
      | Some p => p
      | None => default_options
      end in
    let current :=
      if truthy (opt_forcePosition opts)
      then {| forcePosition := true; restartPhase := restartPhase current |}
      else current in
    let current :=
      if truthy (opt_restartPhase opts)
      then {| forcePosition := forcePosition current; restartPhase := true |}
      else current in
    let w := set_pendingOptions (Some current) w in
    if negb (scheduled w)
    then requestMeasure (set_scheduled true w)
    else w.

(** [private readMeasurement(view)] *)
Definition readMeasurement (view : EditorView) (w : World)
  : Completion (World * CursorMeasurement) :=
  let opts :=
    match pendingOptions w with
    | Some p => p
    | None => default_options
    end in
  let w := set_pendingOptions None w in
  let w := set_scheduled false w in
  if negb (hasFocus view) || negb (isCollapsedSelection view) then
    Normal (w, {| visible := false; rect := None; hostRect := None;
                  head := selection_main_head view; options := opts |})
  else
    let head := selection_main_head view in
    r <- try_catch (coordsAtPos view head (-1)) (Normal None) ;;
    match r with
    | None =>
        Normal (w, {| visible := false; rect := None; hostRect := None;
                      head := head; options := opts |})
    | Some rc =>
        let hostRect := scrollDOM_getBoundingClientRect view in
        Normal (w, {| visible := true; rect := Some rc;
                      hostRect := Some hostRect; head := head;
                      options := opts |})
    end.

(** [this.lastHead !== head] *)
Definition head_differs (last : option Z) (head : Z) : bool :=
  match last with
  | Some h => negb (Z.eqb h head)
  | None => true
  end.

(** The template literal [`${n}px`] *)
Definition px (n : num) : string := num_to_string n ++ "px".

(** [private applyMeasurement(data)] *)
Definition applyMeasurement (data : CursorMeasurement) (w : World) : World :=
  match visible data, rect data, hostRect data with
  | true, Some rect, Some hostRect =>
      let headChanged := head_differs (lastHead w) (head data) in
      if negb (forcePosition (options data)) && negb headChanged then w
      else
        let w := set_lastHead (Some (head data)) w in
        let top := num_sub (rect_top rect) (dom_top hostRect) in
        let left := num_sub (rect_left rect) (dom_left hostRect) in
        let height := num_sub (rect_bottom rect) (rect_top rect) in
        let w := set_cursor_display "block" w in
        let w := set_cursor_height (px height) w in
        let w := set_cursor_top (px top) w in
        let w := set_cursor_left (px left) w in
        if restartPhase (options data) || headChanged
        then restartPhaseTimer w
        else w
  | _, _, _ =>
      let w := hideCursor w in
      set_lastHead None w
  end.

(** [update(update: ViewUpdate)] *)
Definition update (view : EditorView) (u : ViewUpdate) (w : World) : World :=
  if docChanged u || selectionSet u || viewportChanged u
     || geometryChanged u || focusChanged u
  then
    scheduleMeasurement view
      {| opt_forcePosition :=
           Some (viewportChanged u || geometryChanged u || focusChanged u
                 || docChanged u || selectionSet u);
         opt_restartPhase := Some (docChanged u || selectionSet u) |}
      w
  else w.

(** One of the closures pushed on [this.cleanup].  The window's listener is
    removed through [root.defaultView?.], so only when there is a window. *)
Definition run_cleanup (view : EditorView) (l : Listener) (w : World) : World :=
  match fst l with
  | DefaultView =>
      if defaultView view
      then set_listeners (removeEventListener l (listeners w)) w
      else w
  | _ => set_listeners (removeEventListener l (listeners w)) w
  end.

(** [destroy()].  The array [this.cleanup] is left as it is. *)
Definition destroy (view : EditorView) (w : World) : World :=
  let w := fold_left (fun w fn => run_cleanup view fn w) (cleanup w) w in
  let w := match resizeObserver w with
           | Some _ => set_resizeObserver (Some false) w
           | None => w
           end in
  let w := match phaseTimer w with
           | Some id => set_phaseTimer None (clearTimeout id w)
           | None => w
           end in
  let w := set_pendingOptions None w in
  let w := set_scheduled false w in
  let w := set_cursor_attached false w in
  set_dom_classList
    (classList_remove VIRTUAL_CURSOR_ENABLED_CLASS (dom_classList w)) w.

(** *** The handlers the constructor registers *)

(** The frame callback requested by [onSelectionChange]. *)
Definition selectionchange_options : UpdateOptions :=
  {| opt_forcePosition := None; opt_restartPhase := Some true |}.

(** [onScroll], the resize observer's callback and [onWindowResize]. *)
Definition position_options : UpdateOptions :=
  {| opt_forcePosition := Some true; opt_restartPhase := None |}.

(** [onFocus], and the call that ends the constructor. *)
Definition focus_options : UpdateOptions :=
  {| opt_forcePosition := Some true; opt_restartPhase := Some true |}.

(** [onBlur] *)
Definition onBlur (w : World) : World := hideCursor w.

(** What the constructor finds on the page. *)
Record Page : Type := {
  page_ResizeObserver : bool;         (* typeof ResizeObserver !== "undefined" *)
  page_now : Z;
  page_nextTimerId : Z;
  page_dom_classList : list string
}.

Definition register (view : EditorView) (l : Listener) (w : World) : World :=
  let w := match fst l with
           | DefaultView =>
               if defaultView view
               then set_listeners (addEventListener l (listeners w)) w
               else w
           | _ => set_listeners (addEventListener l (listeners w)) w
           end in
  {| cursor_classList := cursor_classList w; cursor_display := cursor_display w;
     cursor_position := cursor_position w; cursor_left := cursor_left w;
     cursor_top := cursor_top w; cursor_height := cursor_height w;
     cursor_attached := cursor_attached w; phaseTimer := phaseTimer w;
     lastHead := lastHead w; resizeObserver := resizeObserver w;
     cleanup := cleanup w ++ [l]; scheduled := scheduled w;
     pendingOptions := pendingOptions w; now := now w; timers := timers w;
     nextTimerId := nextTimerId w; listeners := listeners w;
     dom_classList := dom_classList w; measureRequests := measureRequests w |}.

(** [constructor(private readonly view: EditorView)] *)
Definition constructor (view : EditorView) (p : Page) : World :=
  let w :=
    {| cursor_classList := [VIRTUAL_CURSOR_CLASS];
       cursor_display := "none";
       cursor_position := "absolute";
       cursor_left := "0";
       cursor_top := "0";
       cursor_height := "";
       cursor_attached := true;
       phaseTimer := None;
       lastHead := None;
       resizeObserver := None;
       cleanup := [];
       scheduled := false;
       pendingOptions := None;
       now := page_now p;
       timers := [];
       nextTimerId := page_nextTimerId p;
       listeners := [];
       dom_classList :=
         classList_add VIRTUAL_CURSOR_ENABLED_CLASS (page_dom_classList p);
       measureRequests := 0 |} in
  let w := register view (OwnerDocument, "selectionchange") w in
  let w := register view (ScrollDOM, "scroll") w in
  let w := if page_ResizeObserver p
           then set_resizeObserver (Some true) w
           else w in
  let w := register view (DefaultView, "resize") w in
  let w := register view (ViewDOM, "blur") w in
  let w := register view (ViewDOM, "focus") w in
  scheduleMeasurement view focus_options w.

(** ** The controller at work

    The editor, the page and the window drive the controller: listeners and
    the update hook call [scheduleMeasurement], the editor's measure cycle
    calls the read and hands its snapshot to the write, the window runs a
    timeout once it is due.  A [System] holds the world, the current answers
    of the editor, the snapshots read and not yet written, and whether the
    last call of [coordsAtPos] gave a rectangle. *)

Record System : Type := {
  world : World;
  view : EditorView;
  inflight : list CursorMeasurement;
  lastMapping : option bool
}.

Inductive Event : Type :=
| EvHost (v : EditorView)     (* focus, selection or layout change in the editor *)
| EvSelectionFrame            (* the frame callback requested by onSelectionChange *)
| EvScroll
| EvResizeObserver
| EvWindowResize
| EvFocus
| EvBlur
| EvUpdate (u : ViewUpdate)
| EvRead                      (* the editor runs measure.read *)
| EvWrite                     (* the editor runs measure.write on the oldest snapshot *)
| EvTimeout (id : Z)
| EvTick (dt : Z)             (* time passes *)
| EvDestroy.

Definition listening (l : Listener) (w : World) : bool :=
  existsb (Listener_eqb l) (listeners w).

Definition with_world (s : System) (w : World) : System :=
  {| world := w; view := view s; inflight := inflight s;
     lastMapping := lastMapping s |}.

(** Did the mapping asked by a read succeed?  [None] when the read returns
    before asking. *)
Definition mapping_outcome (v : EditorView) : option bool :=
  if negb (hasFocus v) || negb (isCollapsedSelection v) then None
  else match coordsAtPos v (selection_main_head v) (-1) with
       | Normal (Some _) => Some true
       | _ => Some false
       end.

(** One event; [None] when it cannot happen in this state.  A handler runs
    only while its listener is registered, the observer's callback only while
    it observes, a read only when a request is queued, a write only on a
    snapshot read before, a timeout only when it is in the window's table and
    due.  The frame callback of [onSelectionChange] and the hooks [update]
    and [destroy] are called from outside and may come in any state. *)
Definition step (e : Event) (s : System) : option System :=
  let w := world s in
  match e with
  | EvHost v =>
      Some {| world := w; view := v; inflight := inflight s;
              lastMapping := lastMapping s |}
  | EvSelectionFrame =>
      Some (with_world s (scheduleMeasurement (view s) selectionchange_options w))
  | EvScroll =>
      if listening (ScrollDOM, "scroll") w
      then Some (with_world s (scheduleMeasurement (view s) position_options w))
      else None
  | EvResizeObserver =>
      match resizeObserver w with
      | Some true =>
          Some (with_world s (scheduleMeasurement (view s) position_options w))
      | _ => None
      end
  | EvWindowResize =>
      if listening (DefaultView, "resize") w
      then Some (with_world s (scheduleMeasurement (view s) position_options w))
      else None
  | EvFocus =>
      if listening (ViewDOM, "focus") w
      then Some (with_world s (scheduleMeasurement (view s) focus_options w))
      else None
  | EvBlur =>
      if listening (ViewDOM, "blur") w
      then Some (with_world s (onBlur w))
      else None
  | EvUpdate u => Some (with_world s (update (view s) u w))
  | EvRead =>
      match measureRequests w with
      | O => None
      | S n =>
          match readMeasurement (view s) w with
          | Normal (w', d) =>
              Some {| world := set_measureRequests n w';
                      view := view s;
                      inflight := inflight s ++ [d];
                      lastMapping :=
                        match mapping_outcome (view s) with
                        | Some b => Some b
                        | None => lastMapping s
                        end |}
          | Throw => None
          end
      end
  | EvWrite =>
      match inflight s with
      | d :: rest =>
          Some {| world := applyMeasurement d w; view := view s;
                  inflight := rest; lastMapping := lastMapping s |}
      | [] => None
      end
  | EvTimeout id =>
      match fireTimeout id w with
      | Some w' => Some (with_world s w')
      | None => None
      end
  | EvTick dt =>
      if Z.leb 0 dt then Some (with_world s (set_now (now w + dt) w)) else None
  | EvDestroy => Some (with_world s (destroy (view s) w))
  end.

Fixpoint run (es : list Event) (s : System) : option System :=
  match es with
  | [] => Some s
  | e :: es' =>
      match step e s with
      | Some s' => run es' s'
      | None => None
      end
  end.

(** The system right after the constructor. *)
Definition boot (v : EditorView) (p : Page) : System :=
  {| world := constructor v p; view := v; inflight := []; lastMapping := None |}.

Definition reachable (s : System) : Prop :=
  exists v p es, run es (boot v p) = Some s.

(** ** Observations on the overlay *)

Definition overlay_visible (w : World) : bool :=
  String.eqb (cursor_display w) "block".

Definition overlay_hidden (w : World) : bool :=
  String.eqb (cursor_display w) "none".

Definition dimmed (w : World) : bool :=
  classList_contains VIRTUAL_CURSOR_PHASE_CLASS (cursor_classList w).

(** A snapshot that takes the write into its visible branch. *)
Definition shows (d : CursorMeasurement) : bool :=
  visible d
  && match rect d with Some _ => true | None => false end
  && match hostRect d with Some _ => true | None => false end.

(** A trigger is a call of [scheduleMeasurement]: the editor's answers at
    that time and the intents passed. *)
Definition Trigger : Type := (EditorView * UpdateOptions)%type.

Definition fire (w : World) (t : Trigger) : World :=
  scheduleMeasurement (fst t) (snd t) w.

Definition fire_all (ts : list Trigger) (w : World) : World :=
  fold_left fire ts w.

Definition guard_ok (v : EditorView) : bool :=
  hasFocus v && isCollapsedSelection v.

(** The pending intents after one more trigger. *)
Definition merge_options (p : MeasurementOptions) (o : UpdateOptions)
  : MeasurementOptions :=
  {| forcePosition := forcePosition p || truthy (opt_forcePosition o);
     restartPhase := restartPhase p || truthy (opt_restartPhase o) |}.

(** The component-wise disjunction of the intents of a list of triggers. *)
Definition any_intents (ts : list Trigger) : MeasurementOptions :=
  {| forcePosition := existsb (fun t => truthy (opt_forcePosition (snd t))) ts;
     restartPhase := existsb (fun t => truthy (opt_restartPhase (snd t))) ts |}.

(** Does the cleanup closure for [l] remove a listener when run? *)
Definition removes (v : EditorView) (l : Listener) : bool :=
  match fst l with
  | DefaultView => defaultView v
  | _ => true
  end.

(** The registrations that survive the closures [cs]. *)
Definition survives (v : EditorView) (cs : list Listener) (x : Listener) : bool :=
  forallb (fun l => negb (removes v l && Listener_eqb x l)) cs.

(** The events that call [scheduleMeasurement]. *)
Definition trigger_event (e : Event) : bool :=
  match e with
  | EvSelectionFrame | EvScroll | EvResizeObserver | EvWindowResize | EvFocus =>
      true
  | EvUpdate u =>
      docChanged u || selectionSet u || viewportChanged u
      || geometryChanged u || focusChanged u
  | _ => false
  end.

(** ** Invariants of the world *)

(** The world after a read has been served: [readMeasurement] resets the
    pending intents and the scheduled flag, and the request leaves the
    editor's queue. *)
Definition after_read (n : nat) (w : World) : World :=
  set_measureRequests n (set_scheduled false (set_pendingOptions None w)).

(** A property of worlds that every operation of the controller keeps. *)
Record Stable (P : World -> Prop) : Prop := {
  stable_schedule :
    forall v o w, P w -> P (scheduleMeasurement v o w);
  stable_hide :
    forall w, P w -> P (hideCursor w);
  stable_read :
    forall n w, P w -> P (after_read n w);
  stable_write :
    forall d w, P w -> P (applyMeasurement d w);
  stable_timeout :
    forall id w w', P w -> fireTimeout id w = Some w' -> P w';
  stable_tick :
    forall dt w, 0 <= dt -> P w -> P (set_now (now w + dt) w);
  stable_destroy :
    forall v w, P w -> P (destroy v w)
}.

(** The window holds no timeout of the controller but the one in
    [phaseTimer]; a hidden overlay has display none, no timeout and no dimmed
    class; the dimmed class is absent while a timeout is pending; a visible
    overlay has a remembered head. *)
Definition well_formed (w : World) : Prop :=
  match phaseTimer w with
  | Some id => (exists due, timers w = [(id, due)]) /\ id < nextTimerId w
  | None => timers w = []
  end
  /\ (overlay_visible w = false ->
      cursor_display w = "none" /\ phaseTimer w = None /\ dimmed w = false)
  /\ (phaseTimer w <> None -> dimmed w = false)
  /\ (overlay_visible w = true -> lastHead w <> None).

(** Nothing dims the overlay before time [T]: if it is dimmed then [T] has
    passed, every pending timeout is due at [T] or later, and a timeout set
    from now on will be. *)
Definition not_dimmed_before (T : Z) (w : World) : Prop :=
  (dimmed w = true -> T <= now w)
  /\ (forall id due, In (id, due) (timers w) -> T <= due)
  /\ T <= now w + PHASE_DELAY.

(** A visible overlay goes back to a mapping that succeeded: the snapshot
    read last, if it shows, was read with the mapping successful, and once
    every snapshot is written a visible overlay means that the last mapping
    asked for gave a rectangle. *)
Definition mapped_when_visible (s : System) : Prop :=
  (forall l d, inflight s = (l ++ [d])%list -> shows d = true ->
     lastMapping s = Some true)
  /\ (inflight s = [] -> overlay_visible (world s) = true ->
      lastMapping s = Some true).

End Controller.

Arguments rect_left {num} _.
Arguments rect_right {num} _.
Arguments rect_top {num} _.
Arguments rect_bottom {num} _.
Arguments dom_x {num} _.
Arguments dom_y {num} _.
Arguments dom_width {num} _.
Arguments dom_height {num} _.
Arguments dom_top {num} _.
Arguments dom_right {num} _.
Arguments dom_bottom {num} _.
Arguments dom_left {num} _.
Arguments visible {num} _.
Arguments rect {num} _.
Arguments hostRect {num} _.
Arguments head {num} _.
Arguments options {num} _.
Arguments hasFocus {num} _.
Arguments selection_main_empty {num} _.
Arguments selection_main_head {num} _.
Arguments coordsAtPos {num} _ _ _.
Arguments scrollDOM_getBoundingClientRect {num} _.
Arguments defaultView {num} _.
Arguments world {num} _.
Arguments view {num} _.
Arguments inflight {num} _.
Arguments lastMapping {num} _.
Arguments EvHost {num} _.
Arguments EvSelectionFrame {num}.
Arguments EvScroll {num}.
Arguments EvResizeObserver {num}.
Arguments EvWindowResize {num}.
Arguments EvFocus {num}.
Arguments EvBlur {num}.
Arguments EvUpdate {num} _.
Arguments EvRead {num}.
Arguments EvWrite {num}.
Arguments EvTimeout {num} _.
Arguments EvTick {num} _.
Arguments EvDestroy {num}.
Arguments isCollapsedSelection {num} _.
Arguments scheduleMeasurement {num} _ _ _.
Arguments readMeasurement {num} _ _.
Arguments px {num N} _.
Arguments applyMeasurement {num N} _ _.
Arguments update {num} _ _ _.
Arguments run_cleanup {num} _ _ _.
Arguments destroy {num} _ _.
Arguments register {num} _ _ _.
Arguments constructor {num} _ _.
Arguments with_world {num} _ _.
Arguments mapping_outcome {num} _.
Arguments step {num N} _ _.
Arguments run {num N} _ _.
Arguments boot {num} _ _.
Arguments reachable {num N} _.
Arguments shows {num} _.
Arguments fire {num} _ _.
Arguments fire_all {num} _ _.
Arguments guard_ok {num} _.
Arguments any_intents {num} _.
Arguments removes {num} _ _.
Arguments survives {num} _ _ _.
Arguments trigger_event {num} _.
Arguments Stable {num N} _.
Arguments mapped_when_visible {num} _.

(** ** A concrete editor

    Integer coordinates, printed in decimal, and an editor whose caret sits at
    position 5; used to run the definitions on examples. *)

Definition Z_to_string (z : Z) : string := NilZero.string_of_int (Z.to_int z).

#[export] Instance Z_Number : Number Z :=
  {| num_sub := Z.sub; num_to_string := Z_to_string |}.

Definition caret_rect : Rect Z :=
  {| rect_left := 52; rect_right := 52; rect_top := 140; rect_bottom := 158 |}.

Definition scroller_rect : DOMRect Z :=
  {| dom_x := 40; dom_y := 100; dom_width := 600; dom_height := 400;
     dom_top := 100; dom_right := 640; dom_bottom := 500; dom_left := 40 |}.

(** Focused, selection collapsed at 5, the caret laid out. *)
Definition caret_view : EditorView Z :=
  {| hasFocus := true;
     selection_main_empty := true;
     selection_main_head := 5;
     coordsAtPos := fun _ _ => Normal (Some caret_rect);
     scrollDOM_getBoundingClientRect := scroller_rect;
     defaultView := true |}.

(** The same editor without focus. *)
Definition blurred_view : EditorView Z :=
  {| hasFocus := false;
     selection_main_empty := true;
     selection_main_head := 5;
     coordsAtPos := fun _ _ => Normal (Some caret_rect);
     scrollDOM_getBoundingClientRect := scroller_rect;
     defaultView := true |}.

(** The same editor with a position [coordsAtPos] throws on. *)
Definition unmapped_view : EditorView Z :=
  {| hasFocus := true;
     selection_main_empty := true;
     selection_main_head := 5;
     coordsAtPos := fun _ _ => Throw;
     scrollDOM_getBoundingClientRect := scroller_rect;
     defaultView := true |}.

Definition page0 : Page :=
  {| page_ResizeObserver := true;
     page_now := 1000;
     page_nextTimerId := 1;
     page_dom_classList := ["cm-editor"] |}.

(** A visible snapshot of [caret_view] with the given intents. *)
Definition caret_snapshot (force restart : bool) : CursorMeasurement Z :=
  {| visible := true;
     rect := Some caret_rect;
     hostRect := Some scroller_rect;
     head := 5;
     options := {| forcePosition := force; restartPhase := restart |} |}.

(** The world once the editor has served the constructor's request. *)
Definition fresh_world : World :=
  after_read 0 (constructor caret_view page0).

(** The world after a first, visible write: the overlay shown at position 5
    and the blink timeout pending. *)
Definition shown_world : World :=
  applyMeasurement (caret_snapshot true true) fresh_world.

(** The overlay is painted and hidden by a blur, focus comes back, then a
    selection change with the head where it was is measured. *)
Definition blur_then_selectionchange : list (Event Z) :=
  [EvRead; EvWrite; EvHost blurred_view; EvBlur; EvHost caret_view;
   EvSelectionFrame; EvRead; EvWrite].

(** The first snapshot is read, the editor loses focus and reports a
    geometry change, which hides the overlay, then the snapshot is written. *)
Definition stale_write : list (Event Z) :=
  [EvRead; EvHost blurred_view;
   EvUpdate {| docChanged := false; selectionSet := false;
               viewportChanged := false; geometryChanged := true;
               focusChanged := false |};
   EvWrite].

(** An update that only moves the selection. *)
Definition selection_update : ViewUpdate :=
  {| docChanged := false; selectionSet := true; viewportChanged := false;
     geometryChanged := false; focusChanged := false |}.

(** An update with no flag set. *)
Definition empty_update : ViewUpdate :=
  {| docChanged := false; selectionSet := false; viewportChanged := false;
     geometryChanged := false; focusChanged := false |}.

(** The overlay shown, and the editor found without focus. *)
Definition shown_then_blurred : System Z :=
  {| world := shown_world; view := blurred_view; inflight := [];
     lastMapping := Some true |}.

(** The overlay is painted and dims after the delay, then a selection change
    with the head where it was is read. *)
Definition dim_then_selectionchange : list (Event Z) :=
  [EvRead; EvWrite; EvTick 200; EvTimeout 1; EvSelectionFrame; EvRead].

(** ** Further observations *)

(** The intents a read would consume: [this.pendingOptions ?? {...}]. *)
Definition pending_or_default (w : World) : MeasurementOptions :=
  match pendingOptions w with
  | Some p => p
  | None => default_options
  end.

(** The same editor with another answer to [coordsAtPos]. *)
Definition with_coordsAtPos {num : Type} (v : EditorView num)
    (f : Z -> Z -> Completion (option (Rect num))) : EditorView num :=
  {| hasFocus := hasFocus v;
     selection_main_empty := selection_main_empty v;
     selection_main_head := selection_main_head v;
     coordsAtPos := f;
     scrollDOM_getBoundingClientRect := scrollDOM_getBoundingClientRect v;
     defaultView := defaultView v |}.

(** What only the constructor and [destroy] write: the listeners, the
    cleanup closures, the observer, the classes of the editor's root, the
    attachment and the position style of the overlay; and of the overlay's
    classes, only the dimmed one comes and goes. *)
Definition page_frame (w w' : World) : Prop :=
  listeners w' = listeners w
  /\ cleanup w' = cleanup w
  /\ dom_classList w' = dom_classList w
  /\ resizeObserver w' = resizeObserver w
  /\ cursor_attached w' = cursor_attached w
  /\ cursor_position w' = cursor_position w
  /\ (cursor_classList w' = cursor_classList w
      \/ cursor_classList w'
         = classList_remove VIRTUAL_CURSOR_PHASE_CLASS (cursor_classList w)
      \/ cursor_classList w'
         = classList_add VIRTUAL_CURSOR_PHASE_CLASS (cursor_classList w)).

(** Every registered listener has its cleanup closure. *)
Definition listeners_covered (w : World) : Prop :=
  forall l, In l (listeners w) -> In l (cleanup w).

(** No pending timeout is due later than [PHASE_DELAY] from now. *)
Definition timers_due_soon (w : World) : Prop :=
  forall id due, In (id, due) (timers w) -> due <= now w + PHASE_DELAY.

(** The scheduled flag says that intents are pending, and then a request is
    in the editor's queue. *)
Definition queue_consistent (w : World) : Prop :=
  (scheduled w = true <-> pendingOptions w <> None)
  /\ (scheduled w = true -> (0 < measureRequests w)%nat).

(** The overlay carries its base class, and the dimmed class or not. *)
Definition overlay_classes (w : World) : Prop :=
  cursor_position w = "absolute"
  /\ (cursor_classList w = [VIRTUAL_CURSOR_CLASS]
      \/ cursor_classList w
         = [VIRTUAL_CURSOR_CLASS; VIRTUAL_CURSOR_PHASE_CLASS]).

(** The listeners the constructor registers on an editor. *)
Definition constructor_listeners {num : Type} (v : EditorView num)
  : list Listener :=
  ([(OwnerDocument, "selectionchange"); (ScrollDOM, "scroll")]
   ++ (if defaultView v then [(DefaultView, "resize")] else [])
   ++ [(ViewDOM, "blur"); (ViewDOM, "focus")])%list.

(** The triggers of a list that find the caret present. *)
Definition with_caret {num : Type} (ts : list (Trigger num))
  : list (Trigger num) :=
  filter (fun t => guard_ok (fst t)) ts.

Definition no_triggers {num : Type} (ts : list (Trigger num)) : bool :=
  match ts with
  | [] => true
  | _ :: _ => false
  end.


(** A page where [ResizeObserver] is not defined. *)
Definition page_plain : Page :=
  {| page_ResizeObserver := false;
     page_now := 1000;
     page_nextTimerId := 1;
     page_dom_classList := ["cm-editor"] |}.

(** The concrete editor after its first cycle: the overlay shown. *)
Definition shown_system : System Z :=
  {| world := shown_world; view := caret_view; inflight := [];
     lastMapping := Some true |}.

(** The same, [PHASE_DELAY] later: the blink timeout is due. *)
Definition due_system : System Z :=
  {| world := set_now 1200 shown_world; view := caret_view; inflight := [];
     lastMapping := Some true |}.

(** The events that call [scheduleMeasurement] with force-position set. *)
Definition forced_trigger {num : Type} (e : Event num) : bool :=
  match e with
  | EvScroll | EvResizeObserver | EvWindowResize | EvFocus => true
  | EvUpdate u =>
      docChanged u || selectionSet u || viewportChanged u
      || geometryChanged u || focusChanged u
  | _ => false
  end.

(** The concrete editor after a blur event hid the shown overlay, the
    editor having focus again. *)
Definition hidden_system : System Z :=
  {| world := onBlur shown_world; view := caret_view; inflight := [];
     lastMapping := Some true |}.

(** ** Properties *)

Section Properties.

Variable num : Type.
Context {N : Number num}.

(** ** Basic facts *)

Lemma classList_remove_idem (c : string) (l : list string) :
  classList_remove c (classList_remove c l) = classList_remove c l.
Proof.
  unfold classList_remove. induction l as [|x l IH]; simpl; [reflexivity|].
  destruct (negb (x =? c)%string) eqn:E; simpl; [rewrite E|]; congruence.
Qed.

Lemma classList_contains_remove (c : string) (l : list string) :
  classList_contains c (classList_remove c l) = false.
Proof.
  unfold classList_contains, classList_remove.
  induction l as [|x l IH]; simpl; [reflexivity|].
  destruct (x =? c)%string eqn:E; simpl; [exact IH|].
  rewrite String.eqb_sym, E. exact IH.
Qed.

Lemma guard_ok_false (v : EditorView num) :
  guard_ok v = false ->
  negb (hasFocus v) || negb (isCollapsedSelection v) = true.
Proof. unfold guard_ok. destruct (hasFocus v), (isCollapsedSelection v); auto. Qed.

Lemma guard_ok_true (v : EditorView num) :
  guard_ok v = true ->
  negb (hasFocus v) || negb (isCollapsedSelection v) = false.
Proof. unfold guard_ok. destruct (hasFocus v), (isCollapsedSelection v); auto; discriminate. Qed.

Lemma clearTimeout_not_in (id : Z) (w : World) :
  ~ In id (map fst (timers (clearTimeout id w))).
Proof.
  unfold clearTimeout. simpl. intros H. apply in_map_iff in H.
  destruct H as [[i d] [Hi Hin]]. simpl in Hi. subst i.
  apply filter_In in Hin. destruct Hin as [_ Hn]. simpl in Hn.
  rewrite Z.eqb_refl in Hn. discriminate.
Qed.

(** What [hideCursor] leaves behind, field by field. *)
Lemma hideCursor_effect (w : World) :
  cursor_display (hideCursor w) = "none"
  /\ dimmed (hideCursor w) = false
  /\ phaseTimer (hideCursor w) = None
  /\ (forall id, phaseTimer w = Some id ->
        ~ In id (map fst (timers (hideCursor w))))
  /\ (phaseTimer w = None -> timers (hideCursor w) = timers w)
  /\ lastHead (hideCursor w) = lastHead w
  /\ measureRequests (hideCursor w) = measureRequests w
  /\ scheduled (hideCursor w) = scheduled w
  /\ pendingOptions (hideCursor w) = pendingOptions w.
Proof.
  unfold hideCursor, dimmed. simpl.
  destruct (phaseTimer w) as [id|] eqn:E; simpl;
    rewrite ?classList_contains_remove, ?E; repeat split; auto;
    try discriminate.
  intros id' Hid. injection Hid as <-.
  apply (clearTimeout_not_in id
           (set_cursor_classList
              (classList_remove VIRTUAL_CURSOR_PHASE_CLASS (cursor_classList w))
              (set_cursor_display "none" w))).
Qed.

(** The read never throws, and its snapshot is visible exactly when the
    editor has focus, the selection is collapsed and the mapping gave a
    rectangle. *)
Lemma readMeasurement_total (v : EditorView num) (w : World) :
  exists d,
    readMeasurement v w
    = Normal (set_scheduled false (set_pendingOptions None w), d)
    /\ options d = match pendingOptions w with
                   | Some p => p
                   | None => default_options
                   end
    /\ head d = selection_main_head v
    /\ (visible d = true <->
        guard_ok v = true /\ mapping_outcome v = Some true)
    /\ shows d = visible d.
Proof.
  unfold readMeasurement, mapping_outcome, guard_ok, shows.
  destruct (hasFocus v), (isCollapsedSelection v); simpl;
    try (eexists; repeat split; simpl; try reflexivity;
         intros; try discriminate; intuition discriminate).
  destruct (coordsAtPos v (selection_main_head v) (-1)) as [[rc|]|]; simpl;
    eexists; repeat split; simpl; try reflexivity;
    intros; try discriminate; intuition discriminate.
Qed.

(** ** What a single call does *)


(** C4.  When the mapping throws or gives no rectangle, the read still
    returns normally, with a snapshot that is not visible; the write of that
    snapshot hides the overlay and clears the remembered head, whatever the
    world looked like before. *)
Theorem failed_mapping_hides (v : EditorView num) (w : World) :
  coordsAtPos v (selection_main_head v) (-1) = Throw
  \/ coordsAtPos v (selection_main_head v) (-1) = Normal None ->
  exists w' d,
    readMeasurement v w = Normal (w', d)
    /\ visible d = false
    /\ forall w0 : World,
         let w1 := applyMeasurement d w0 in
         cursor_display w1 = "none"
         /\ dimmed w1 = false
         /\ phaseTimer w1 = None
         /\ lastHead w1 = None.
Proof.
  intros H.
  assert (E : exists d, readMeasurement v w
                = Normal (set_scheduled false (set_pendingOptions None w), d)
                /\ visible d = false).
  { unfold readMeasurement.
    destruct (negb (hasFocus v) || negb (isCollapsedSelection v)).
    - eexists; split; reflexivity.
    - destruct H as [-> | ->]; simpl; eexists; split; reflexivity. }
  destruct E as (d & Hr & Hv). eexists; exists d. split; [exact Hr|]. split; [exact Hv|].
  intros w0 w1. subst w1. unfold applyMeasurement. rewrite Hv.
  destruct (hideCursor_effect w0) as (Hd & Hm & Ht & _).
  unfold dimmed in *. simpl. auto.
Qed.

(** C6.  An update with one of its five flags set calls
    [scheduleMeasurement] with force-position set to "viewport, geometry or
    focus changed, or document or selection changed" and restart-phase set to
    "document or selection changed": with the caret present these intents are
    merged into the pending ones and a measurement is requested unless one
    already is.  An update with no flag set changes nothing. *)
Theorem update_requests_measurement
    (v : EditorView num) (u : ViewUpdate) (w : World) :
  let any := docChanged u || selectionSet u || viewportChanged u
             || geometryChanged u || focusChanged u in
  let force := (viewportChanged u || geometryChanged u || focusChanged u)
               || (docChanged u || selectionSet u) in
  let restart := docChanged u || selectionSet u in
  let old := match pendingOptions w with
             | Some p => p
             | None => default_options
             end in
  (any = false -> update v u w = w)
  /\ (any = true ->
      update v u w
      = scheduleMeasurement v
          {| opt_forcePosition := Some force; opt_restartPhase := Some restart |} w)
  /\ (any = true -> guard_ok v = true ->
      pendingOptions (update v u w)
      = Some {| forcePosition := forcePosition old || force;
                restartPhase := restartPhase old || restart |}
      /\ scheduled (update v u w) = true
      /\ measureRequests (update v u w)
         = if scheduled w then measureRequests w else S (measureRequests w)).
Proof.
  intros any force restart old. subst any force restart old.
  unfold update.
  destruct (docChanged u), (selectionSet u), (viewportChanged u),
    (geometryChanged u), (focusChanged u); simpl;
    (split; [intros; try reflexivity; discriminate|]);
    (split; [intros; try reflexivity; discriminate|]);
    intros Hany Hg; try discriminate;
    unfold scheduleMeasurement; rewrite (guard_ok_true v Hg); simpl;
    destruct (pendingOptions w) as [[f r]|]; destruct (scheduled w) eqn:Hs;
    simpl; rewrite ?Hs, ?orb_true_r, ?orb_false_r; auto.
Qed.

(** C7.  A visible snapshot without force-position whose head is the
    remembered head makes the write return at once: the world after the write
    is the world before it, so display, top, left, height, class list,
    remembered head and blink timeout are all as they were. *)
Theorem unchanged_write_is_skipped (d : CursorMeasurement num) (w : World) :
  shows d = true ->
  forcePosition (options d) = false ->
  lastHead w = Some (head d) ->
  applyMeasurement d w = w.
Proof.
  unfold shows, applyMeasurement. intros Hs Hf Hl.
  destruct (visible d); [|discriminate].
  destruct (rect d); [|discriminate].
  destruct (hostRect d); [|discriminate].
  rewrite Hf, Hl. simpl. rewrite Z.eqb_refl. reflexivity.
Qed.

(** C8.  A visible write that is not skipped (force-position was asked, or
    the head is not the remembered one) remembers the snapshot's head, shows
    the overlay and sets top, left and height to the caret rectangle's top
    minus the container's top, its left minus the container's left, and its
    bottom minus its top, each printed with the unit px. *)
Theorem visible_write_styles
    (d : CursorMeasurement num) (rc : Rect num) (hr : DOMRect num) (w : World) :
  visible d = true -> rect d = Some rc -> hostRect d = Some hr ->
  forcePosition (options d) = true \/ lastHead w <> Some (head d) ->
  let w' := applyMeasurement d w in
  lastHead w' = Some (head d)
  /\ cursor_display w' = "block"
  /\ cursor_top w' = px (num_sub (rect_top rc) (dom_top hr))
  /\ cursor_left w' = px (num_sub (rect_left rc) (dom_left hr))
  /\ cursor_height w' = px (num_sub (rect_bottom rc) (rect_top rc)).
Proof.
  intros Hv Hr Hh Hm w'. subst w'. unfold applyMeasurement.
  rewrite Hv, Hr, Hh.
  assert (G : negb (forcePosition (options d))
              && negb (head_differs (lastHead w) (head d)) = false).
  { destruct Hm as [-> | Hn]; [reflexivity|].
    unfold head_differs. destruct (lastHead w) as [h|]; [|apply andb_false_r].
    destruct (Z.eqb_spec h (head d)) as [->|]; [congruence|apply andb_false_r]. }
  rewrite G.
  destruct (restartPhase (options d) || head_differs (lastHead w) (head d));
    unfold restartPhaseTimer; simpl; auto.
  destruct (phaseTimer w); simpl; auto.
Qed.

Lemma World_eta (w : World) :
  w = {| cursor_classList := cursor_classList w;
         cursor_display := cursor_display w;
         cursor_position := cursor_position w; cursor_left := cursor_left w;
         cursor_top := cursor_top w; cursor_height := cursor_height w;
         cursor_attached := cursor_attached w; phaseTimer := phaseTimer w;
         lastHead := lastHead w; resizeObserver := resizeObserver w;
         cleanup := cleanup w; scheduled := scheduled w;
         pendingOptions := pendingOptions w; now := now w; timers := timers w;
         nextTimerId := nextTimerId w; listeners := listeners w;
         dom_classList := dom_classList w;
         measureRequests := measureRequests w |}.
Proof. destruct w; reflexivity. Qed.

Lemma filter_andb {A : Type} (f g : A -> bool) (l : list A) :
  filter (fun x => f x && g x) l = filter g (filter f l).
Proof.
  induction l as [|x l IH]; simpl; [reflexivity|].
  destruct (f x); simpl; [destruct (g x)|]; congruence.
Qed.

Lemma filter_idem {A : Type} (f : A -> bool) (l : list A) :
  filter f (filter f l) = filter f l.
Proof.
  induction l as [|x l IH]; simpl; [reflexivity|].
  destruct (f x) eqn:E; simpl; [rewrite E|]; congruence.
Qed.

Lemma filter_true {A : Type} (l : list A) : filter (fun _ => true) l = l.
Proof. induction l; simpl; congruence. Qed.

Lemma run_cleanup_listeners (v : EditorView num) (l : Listener) (w : World) :
  run_cleanup v l w
  = set_listeners
      (filter (fun x => negb (removes v l && Listener_eqb x l)) (listeners w)) w.
Proof.
  unfold run_cleanup, removes, removeEventListener.
  destruct (fst l); simpl; try reflexivity.
  destruct (defaultView v); simpl; [reflexivity|].
  rewrite filter_true. apply World_eta.
Qed.

(** Running all the cleanup closures only filters the listeners. *)
Lemma cleanup_fold (v : EditorView num) (cs : list Listener) (w : World) :
  fold_left (fun w fn => run_cleanup v fn w) cs w
  = set_listeners (filter (survives v cs) (listeners w)) w.
Proof.
  revert w. induction cs as [|l cs IH]; intros w; simpl.
  - unfold survives. simpl. rewrite filter_true. apply World_eta.
  - rewrite IH, run_cleanup_listeners. simpl.
    unfold set_listeners. simpl. f_equal.
    symmetry. apply filter_andb.
Qed.

(** [destroy] written out field by field. *)
Lemma destroy_fields (v : EditorView num) (w : World) :
  destroy v w
  = {| cursor_classList := cursor_classList w;
       cursor_display := cursor_display w;
       cursor_position := cursor_position w; cursor_left := cursor_left w;
       cursor_top := cursor_top w; cursor_height := cursor_height w;
       cursor_attached := false;
       phaseTimer := None;
       lastHead := lastHead w;
       resizeObserver := match resizeObserver w with
                         | Some _ => Some false
                         | None => None
                         end;
       cleanup := cleanup w;
       scheduled := false;
       pendingOptions := None;
       now := now w;
       timers := match phaseTimer w with
                 | Some id => filter (fun t => negb (Z.eqb (fst t) id)) (timers w)
                 | None => timers w
                 end;
       nextTimerId := nextTimerId w;
       listeners := filter (survives v (cleanup w)) (listeners w);
       dom_classList :=
         classList_remove VIRTUAL_CURSOR_ENABLED_CLASS (dom_classList w);
       measureRequests := measureRequests w |}.
Proof.
  unfold destroy. rewrite cleanup_fold.
  destruct w as [cl di po le to he at_ pt lh ro cu sc pe no ti ne li dc mr].
  simpl. destruct ro, pt; reflexivity.
Qed.

(** C9.  Hiding twice is hiding once, and destroying twice is destroying
    once: the second call finds the timeout field already null, so it cancels
    nothing, and it leaves the world of the first call as it is. *)
Theorem hide_and_destroy_idempotent :
  (forall w : World,
      hideCursor (hideCursor w) = hideCursor w
      /\ phaseTimer (hideCursor w) = None)
  /\ (forall (v : EditorView num) (w : World),
      destroy v (destroy v w) = destroy v w
      /\ phaseTimer (destroy v w) = None).
Proof.
  split.
  - intros w.
    destruct w as [cl di po le to he at_ pt lh ro cu sc pe no ti ne li dc mr].
    unfold hideCursor. simpl. destruct pt as [id|]; simpl;
      rewrite classList_remove_idem; split; reflexivity.
  - intros v w. rewrite (destroy_fields v (destroy v w)).
    rewrite (destroy_fields v w). simpl.
    rewrite classList_remove_idem, filter_idem.
    destruct (resizeObserver w); split; reflexivity.
Qed.

(** With the caret present, a trigger merges its intents into the pending
    ones and asks for a measurement unless one is already asked for. *)
Lemma scheduleMeasurement_ok (v : EditorView num) (o : UpdateOptions) (w : World) :
  guard_ok v = true ->
  let p := merge_options
             match pendingOptions w with
             | Some p => p
             | None => default_options
             end o in
  scheduleMeasurement v o w
  = if scheduled w
    then set_pendingOptions (Some p) w
    else requestMeasure (set_scheduled true (set_pendingOptions (Some p) w)).
Proof.
  intros Hg p. subst p. unfold scheduleMeasurement, merge_options.
  rewrite (guard_ok_true v Hg). simpl.
  destruct (pendingOptions w) as [[f r]|]; simpl;
    destruct (truthy (opt_forcePosition o)), (truthy (opt_restartPhase o));
    simpl; rewrite ?orb_true_r, ?orb_false_r;
    destruct (scheduled w); reflexivity.
Qed.

Lemma scheduleMeasurement_lastHead (v : EditorView num) (o : UpdateOptions) (w : World) :
  guard_ok v = true -> lastHead (scheduleMeasurement v o w) = lastHead w.
Proof.
  intros Hg. rewrite (scheduleMeasurement_ok v o w Hg).
  destruct (scheduled w); reflexivity.
Qed.

Lemma fire_all_cons (t : Trigger num) (ts : list (Trigger num)) (w : World) :
  fire_all (t :: ts) w = fire_all ts (scheduleMeasurement (fst t) (snd t) w).
Proof. reflexivity. Qed.

Lemma fire_all_scheduled (ts : list (Trigger num)) (w : World) (p : MeasurementOptions) :
  forallb (fun t => guard_ok (fst t)) ts = true ->
  pendingOptions w = Some p -> scheduled w = true ->
  pendingOptions (fire_all ts w)
  = Some {| forcePosition := forcePosition p || forcePosition (any_intents ts);
            restartPhase := restartPhase p || restartPhase (any_intents ts) |}
  /\ scheduled (fire_all ts w) = true
  /\ measureRequests (fire_all ts w) = measureRequests w.
Proof.
  revert w p. induction ts as [|t ts IH]; intros w p Hall Hp Hs.
  - simpl. rewrite !orb_false_r. destruct p. auto.
  - simpl in Hall. apply andb_true_iff in Hall. destruct Hall as [Hg Hall].
    rewrite fire_all_cons, (scheduleMeasurement_ok _ _ w Hg), Hs, Hp.
    specialize (IH (set_pendingOptions (Some (merge_options p (snd t))) w)
                  (merge_options p (snd t)) Hall eq_refl Hs).
    destruct IH as (I1 & I2 & I3). rewrite I1, I2, I3. simpl.
    rewrite !orb_assoc. auto.
Qed.

(** C1.  Starting where a read left the controller (nothing scheduled,
    nothing pending), any non-empty sequence of triggers that all find the
    caret present asks for exactly one measurement, and the read that serves
    it consumes the component-wise disjunction of the triggers' intents,
    leaving again nothing scheduled and nothing pending. *)
Theorem triggers_coalesce (ts : list (Trigger num)) (w : World) (v : EditorView num) :
  ts <> [] ->
  forallb (fun t => guard_ok (fst t)) ts = true ->
  scheduled w = false ->
  pendingOptions w = None ->
  let w' := fire_all ts w in
  measureRequests w' = S (measureRequests w)
  /\ exists w'' d,
       readMeasurement v w' = Normal (w'', d)
       /\ options d = any_intents ts
       /\ scheduled w'' = false
       /\ pendingOptions w'' = None
       /\ measureRequests w'' = measureRequests w'.
Proof.
  intros Hne Hall Hs Hp w'. subst w'.
  destruct ts as [|t ts]; [congruence|]. clear Hne.
  simpl in Hall. apply andb_true_iff in Hall. destruct Hall as [Hg Hall].
  rewrite fire_all_cons, (scheduleMeasurement_ok _ _ w Hg), Hs, Hp.
  match goal with
  | |- context [fire_all ts ?w1] =>
      destruct (fire_all_scheduled ts w1 (merge_options default_options (snd t))
                  Hall eq_refl eq_refl) as (I1 & I2 & I3)
  end.
  split; [rewrite I3; reflexivity|].
  match goal with
  | |- context [readMeasurement v ?w1] =>
      destruct (readMeasurement_total v w1) as (d & Hr & Ho & _)
  end.
  eexists; exists d. split; [exact Hr|].
  split; [|simpl; auto].
  rewrite Ho, I1. unfold any_intents. simpl. reflexivity.
Qed.

(** ** Invariants along a run *)

Lemma update_schedule (P : World -> Prop) (v : EditorView num) (u : ViewUpdate)
    (w : World) :
  (forall o, P (scheduleMeasurement v o w)) -> P w -> P (update v u w).
Proof.
  intros Hs Hw. unfold update.
  destruct (docChanged u || selectionSet u || viewportChanged u
            || geometryChanged u || focusChanged u); auto.
Qed.

Lemma step_world (P : World -> Prop) (e : Event num) (s s' : System num) :
  Stable P -> step e s = Some s' -> P (world s) -> P (world s').
Proof.
  intros St Hstep Hw. destruct St as [Hsch Hhide Hread Hwrite Hto Htick Hdes].
  destruct e; simpl in Hstep.
  - injection Hstep as <-. exact Hw.
  - injection Hstep as <-. simpl. auto.
  - destruct (listening _ _); [|discriminate]. injection Hstep as <-. simpl. auto.
  - destruct (resizeObserver (world s)) as [[|]|]; try discriminate.
    injection Hstep as <-. simpl. auto.
  - destruct (listening _ _); [|discriminate]. injection Hstep as <-. simpl. auto.
  - destruct (listening _ _); [|discriminate]. injection Hstep as <-. simpl. auto.
  - destruct (listening _ _); [|discriminate]. injection Hstep as <-. simpl.
    apply Hhide. exact Hw.
  - injection Hstep as <-. simpl. apply update_schedule; auto.
  - destruct (measureRequests (world s)) as [|n]; [discriminate|].
    destruct (readMeasurement_total (view s) (world s)) as (d & Hr & _).
    rewrite Hr in Hstep. injection Hstep as <-. simpl.
    apply (Hread n). exact Hw.
  - destruct (inflight s) as [|d rest]; [discriminate|].
    injection Hstep as <-. simpl. auto.
  - destruct (fireTimeout id (world s)) as [w'|] eqn:E; [|discriminate].
    injection Hstep as <-. simpl. eauto.
  - destruct (Z.leb_spec 0 dt); [|discriminate].
    injection Hstep as <-. simpl. auto.
  - injection Hstep as <-. simpl. auto.
Qed.

Lemma run_world (P : World -> Prop) (es : list (Event num)) (s s' : System num) :
  Stable P -> run es s = Some s' -> P (world s) -> P (world s').
Proof.
  intros St. revert s. induction es as [|e es IH]; intros s Hrun Hw; simpl in Hrun.
  - injection Hrun as <-. exact Hw.
  - destruct (step e s) as [s1|] eqn:E; [|discriminate].
    apply (IH s1 Hrun). apply (step_world P e s s1 St E Hw).
Qed.

Ltac world_cases w :=
  destruct w as [cl di po le to he at_ pt lh ro cu sc pe no ti ne li dc mr].

Lemma well_formed_ext (w w' : World) :
  phaseTimer w' = phaseTimer w -> timers w' = timers w ->
  nextTimerId w' = nextTimerId w -> cursor_display w' = cursor_display w ->
  cursor_classList w' = cursor_classList w -> lastHead w' = lastHead w ->
  well_formed w -> well_formed w'.
Proof.
  unfold well_formed, overlay_visible, dimmed.
  intros -> -> -> -> -> ->. auto.
Qed.

Lemma not_dimmed_before_ext (T : Z) (w w' : World) :
  cursor_classList w' = cursor_classList w -> timers w' = timers w ->
  now w' = now w ->
  not_dimmed_before T w -> not_dimmed_before T w'.
Proof.
  unfold not_dimmed_before, dimmed. intros -> -> ->. auto.
Qed.

Lemma well_formed_hideCursor (w : World) :
  well_formed w -> well_formed (hideCursor w).
Proof.
  world_cases w. unfold well_formed, hideCursor, overlay_visible, dimmed.
  simpl. intros (W1 & W2 & W3 & W4).
  destruct pt as [id|]; simpl; rewrite classList_contains_remove.
  - destruct W1 as [[due ->] _]. simpl. rewrite Z.eqb_refl. simpl.
    repeat split; auto; discriminate.
  - repeat split; auto; discriminate.
Qed.

Lemma well_formed_lastHead_hidden (w : World) (h : option Z) :
  overlay_visible w = false -> well_formed w -> well_formed (set_lastHead h w).
Proof.
  world_cases w. unfold well_formed, overlay_visible, dimmed. simpl.
  intros Hv (W1 & W2 & W3 & W4). repeat split; auto; try apply W2; auto.
  congruence.
Qed.

Lemma hideCursor_hidden (w : World) : overlay_visible (hideCursor w) = false.
Proof.
  unfold overlay_visible.
  destruct (hideCursor_effect w) as (-> & _). reflexivity.
Qed.

Lemma well_formed_scheduleMeasurement (v : EditorView num) (o : UpdateOptions)
    (w : World) :
  well_formed w -> well_formed (scheduleMeasurement v o w).
Proof.
  intros W. destruct (guard_ok v) eqn:Hg.
  - rewrite (scheduleMeasurement_ok v o w Hg).
    destruct (scheduled w); revert W; apply well_formed_ext; reflexivity.
  - unfold scheduleMeasurement. rewrite (guard_ok_false v Hg).
    apply well_formed_lastHead_hidden;
      [apply hideCursor_hidden | apply well_formed_hideCursor, W].
Qed.

Lemma well_formed_restartPhaseTimer (w : World) :
  overlay_visible w = true -> lastHead w <> None ->
  match phaseTimer w with
  | Some id => exists due, timers w = [(id, due)]
  | None => timers w = []
  end ->
  well_formed (restartPhaseTimer w)
  /\ dimmed (restartPhaseTimer w) = false
  /\ phaseTimer (restartPhaseTimer w) = Some (nextTimerId w)
  /\ timers (restartPhaseTimer w) = [(nextTimerId w, now w + PHASE_DELAY)].
Proof.
  world_cases w.
  unfold well_formed, restartPhaseTimer, overlay_visible, dimmed. simpl.
  intros Hv Hl W1.
  destruct pt as [id|]; simpl; rewrite classList_contains_remove.
  - destruct W1 as [due ->]. simpl. rewrite Z.eqb_refl. simpl.
    rewrite Hv. repeat split; eauto; try discriminate; lia.
  - rewrite W1. simpl. rewrite Hv. repeat split; eauto; try discriminate; lia.
Qed.

Lemma well_formed_applyMeasurement (d : CursorMeasurement num) (w : World) :
  well_formed w -> well_formed (applyMeasurement d w).
Proof.
  intros W.
  assert (Hhide : well_formed (set_lastHead None (hideCursor w))).
  { apply well_formed_lastHead_hidden;
      [apply hideCursor_hidden | apply well_formed_hideCursor, W]. }
  unfold applyMeasurement.
  destruct (visible d); [|exact Hhide].
  destruct (rect d) as [rc|]; [|exact Hhide].
  destruct (hostRect d) as [hr|]; [|exact Hhide].
  destruct (negb (forcePosition (options d))
            && negb (head_differs (lastHead w) (head d))); [exact W|].
  destruct W as (W1 & W2 & W3 & W4).
  destruct (restartPhase (options d) || head_differs (lastHead w) (head d)).
  - apply well_formed_restartPhaseTimer; simpl; try reflexivity; try discriminate.
    destruct (phaseTimer w); [apply W1 | exact W1].
  - unfold well_formed, overlay_visible, dimmed. simpl.
    repeat split; auto; try discriminate.
Qed.

Lemma fireTimeout_inv (id : Z) (w w' : World) :
  fireTimeout id w = Some w' ->
  exists due,
    In (id, due) (timers w) /\ due <= now w
    /\ w' = phaseTimerCallback (clearTimeout id w).
Proof.
  unfold fireTimeout.
  destruct (find (fun t => Z.eqb (fst t) id) (timers w)) as [[i due]|] eqn:E;
    [|discriminate].
  apply find_some in E. destruct E as [Hin Hid]. simpl in Hid.
  apply Z.eqb_eq in Hid. subst i.
  destruct (Z.leb_spec due (now w)); [|discriminate].
  intros Hw. injection Hw as <-. exists due. auto.
Qed.

Lemma classList_contains_add (c : string) (l : list string) :
  classList_contains c (classList_add c l) = true.
Proof.
  unfold classList_add. destruct (classList_contains c l) eqn:E; [exact E|].
  unfold classList_contains. rewrite existsb_app. simpl.
  rewrite String.eqb_refl. apply orb_true_iff. right. reflexivity.
Qed.

Lemma well_formed_fireTimeout (id : Z) (w w' : World) :
  well_formed w -> fireTimeout id w = Some w' -> well_formed w'.
Proof.
  intros W H. apply fireTimeout_inv in H. destruct H as (due & Hin & _ & ->).
  world_cases w. unfold well_formed, overlay_visible, dimmed in *.
  simpl in *. destruct W as (W1 & W2 & W3 & W4).
  destruct pt as [p|].
  - destruct W1 as [[due' ->] _]. simpl in Hin.
    destruct Hin as [Hin|[]]. injection Hin as -> ->.
    simpl. rewrite Z.eqb_refl. simpl.
    destruct (di =? "block")%string eqn:Ed.
    + repeat split; auto; try discriminate. intros H; contradiction H; reflexivity.
    + destruct (W2 eq_refl) as (_ & Hp & _). discriminate.
  - rewrite W1 in Hin. destruct Hin.
Qed.

Lemma well_formed_destroy (v : EditorView num) (w : World) :
  well_formed w -> well_formed (destroy v w).
Proof.
  rewrite destroy_fields. world_cases w.
  unfold well_formed, overlay_visible, dimmed. simpl.
  intros (W1 & W2 & W3 & W4).
  split.
  - destruct pt as [id|]; [|exact W1].
    destruct W1 as [[due ->] _]. simpl. rewrite Z.eqb_refl. reflexivity.
  - repeat split; auto; try apply W2; auto;
      try (intros H; contradiction H; reflexivity).
Qed.

Lemma well_formed_stable : Stable well_formed.
Proof.
  constructor.
  - intros v o w. apply well_formed_scheduleMeasurement.
  - apply well_formed_hideCursor.
  - intros n w. apply well_formed_ext; reflexivity.
  - intros d w. apply well_formed_applyMeasurement.
  - intros id w w' W H. apply (well_formed_fireTimeout id w w' W H).
  - intros dt w _. apply well_formed_ext; reflexivity.
  - intros v w. apply well_formed_destroy.
Qed.

Lemma register_fields (v : EditorView num) (l : Listener) (w : World) :
  phaseTimer (register v l w) = phaseTimer w
  /\ timers (register v l w) = timers w
  /\ nextTimerId (register v l w) = nextTimerId w
  /\ cursor_display (register v l w) = cursor_display w
  /\ cursor_classList (register v l w) = cursor_classList w
  /\ lastHead (register v l w) = lastHead w.
Proof.
  unfold register. destruct (fst l); simpl; try (repeat split; reflexivity).
  destruct (defaultView v); repeat split; reflexivity.
Qed.

Lemma well_formed_register (v : EditorView num) (l : Listener) (w : World) :
  well_formed w -> well_formed (register v l w).
Proof.
  destruct (register_fields v l w) as (H1 & H2 & H3 & H4 & H5 & H6).
  apply well_formed_ext; assumption.
Qed.

Lemma well_formed_constructor (v : EditorView num) (p : Page) :
  well_formed (constructor v p).
Proof.
  unfold constructor.
  apply well_formed_scheduleMeasurement.
  do 3 apply well_formed_register.
  match goal with
  | |- well_formed (if ?b then set_resizeObserver ?x ?w else ?w) =>
      assert (W : well_formed w);
      [|destruct b; [revert W; apply well_formed_ext; reflexivity | exact W]]
  end.
  do 2 apply well_formed_register.
  unfold well_formed, overlay_visible, dimmed. simpl.
  repeat split; auto; discriminate.
Qed.

Lemma reachable_well_formed (s : System num) :
  reachable s -> well_formed (world s).
Proof.
  intros (v & p & es & Hrun).
  apply (run_world well_formed es (boot v p) s well_formed_stable Hrun).
  apply well_formed_constructor.
Qed.

Lemma not_dimmed_before_hideCursor (T : Z) (w : World) :
  not_dimmed_before T w -> not_dimmed_before T (hideCursor w).
Proof.
  world_cases w. unfold not_dimmed_before, hideCursor, dimmed. simpl.
  intros (D1 & D2 & D3).
  destruct pt as [p|]; simpl; rewrite classList_contains_remove;
    repeat split; auto; try discriminate.
  intros id due Hin. apply filter_In in Hin. destruct Hin as [Hin _]. eauto.
Qed.

Lemma not_dimmed_before_restartPhaseTimer (T : Z) (w : World) :
  not_dimmed_before T w -> not_dimmed_before T (restartPhaseTimer w).
Proof.
  world_cases w. unfold not_dimmed_before, restartPhaseTimer, dimmed. simpl.
  intros (D1 & D2 & D3).
  destruct pt as [p|]; simpl; rewrite classList_contains_remove;
    repeat split; auto; try discriminate;
    intros id due Hin; apply in_app_or in Hin;
    destruct Hin as [Hin|[Hin|[]]];
    try (injection Hin as <- <-; exact D3); eauto.
  apply filter_In in Hin. destruct Hin as [Hin _]. eauto.
Qed.

Lemma not_dimmed_before_stable (T : Z) : Stable (not_dimmed_before T).
Proof.
  constructor.
  - intros v o w D. destruct (guard_ok v) eqn:Hg.
    + rewrite (scheduleMeasurement_ok v o w Hg).
      destruct (scheduled w); revert D; apply not_dimmed_before_ext; reflexivity.
    + unfold scheduleMeasurement. rewrite (guard_ok_false v Hg).
      apply (not_dimmed_before_ext T (hideCursor w)); try reflexivity.
      apply not_dimmed_before_hideCursor, D.
  - apply not_dimmed_before_hideCursor.
  - intros n w. apply not_dimmed_before_ext; reflexivity.
  - intros d w D.
    assert (Hhide : not_dimmed_before T (set_lastHead None (hideCursor w))).
    { apply (not_dimmed_before_ext T (hideCursor w)); try reflexivity.
      apply not_dimmed_before_hideCursor, D. }
    unfold applyMeasurement.
    destruct (visible d); [|exact Hhide].
    destruct (rect d) as [rc|]; [|exact Hhide].
    destruct (hostRect d) as [hr|]; [|exact Hhide].
    destruct (negb (forcePosition (options d))
              && negb (head_differs (lastHead w) (head d))); [exact D|].
    destruct (restartPhase (options d) || head_differs (lastHead w) (head d)).
    + apply not_dimmed_before_restartPhaseTimer.
      revert D. apply not_dimmed_before_ext; reflexivity.
    + revert D. apply not_dimmed_before_ext; reflexivity.
  - intros id w w' (D1 & D2 & D3) H. apply fireTimeout_inv in H.
    destruct H as (due & Hin & Hdue & ->).
    unfold not_dimmed_before, phaseTimerCallback, clearTimeout. simpl.
    repeat split; auto.
    + intros _. specialize (D2 id due Hin). lia.
    + intros i d Hi. apply filter_In in Hi. destruct Hi as [Hi _]. eauto.
  - intros dt w Hdt (D1 & D2 & D3).
    unfold not_dimmed_before, dimmed. simpl. repeat split; auto.
    + intros H. specialize (D1 H). lia.
    + lia.
  - intros v w (D1 & D2 & D3). rewrite destroy_fields.
    unfold not_dimmed_before, dimmed. simpl. repeat split; auto.
    intros id due Hin. destruct (phaseTimer w); eauto.
    apply filter_In in Hin. destruct Hin as [Hin _]. eauto.
Qed.

Lemma restartPhaseTimer_lastHead (w : World) :
  lastHead (restartPhaseTimer w) = lastHead w.
Proof. unfold restartPhaseTimer. simpl. destruct (phaseTimer w); reflexivity. Qed.

Lemma applyMeasurement_lastHead (d : CursorMeasurement num) (w : World) :
  shows d = true -> lastHead w <> None -> lastHead (applyMeasurement d w) <> None.
Proof.
  unfold shows, applyMeasurement. intros Hs Hl.
  destruct (visible d); [|discriminate].
  destruct (rect d); [|discriminate].
  destruct (hostRect d); [|discriminate].
  destruct (negb (forcePosition (options d))
            && negb (head_differs (lastHead w) (head d))); [exact Hl|].
  destruct (restartPhase (options d) || head_differs (lastHead w) (head d));
    rewrite ?restartPhaseTimer_lastHead; simpl; discriminate.
Qed.

Lemma update_lastHead (v : EditorView num) (u : ViewUpdate) (w : World) :
  guard_ok v = true -> lastHead (update v u w) = lastHead w.
Proof.
  intros Hg. unfold update.
  destruct (docChanged u || selectionSet u || viewportChanged u
            || geometryChanged u || focusChanged u); [|reflexivity].
  apply scheduleMeasurement_lastHead, Hg.
Qed.

(** C10.  [hideCursor] leaves the remembered head as it is, so does the blur
    handler, which only calls it; and an event that finds a remembered head
    and leaves none is either a trigger that found the editor without focus
    or the selection not collapsed, or a write of a snapshot that does not
    show. *)
Theorem lastHead_cleared_only_on_guard_paths :
  (forall w : World, lastHead (hideCursor w) = lastHead w)
  /\ (forall w : World, lastHead (onBlur w) = lastHead w)
  /\ (forall (e : Event num) (s s' : System num),
        step e s = Some s' ->
        lastHead (world s) <> None ->
        lastHead (world s') = None ->
        (trigger_event e = true /\ guard_ok (view s) = false)
        \/ (e = EvWrite
            /\ exists d rest, inflight s = d :: rest /\ shows d = false)).
Proof.
  assert (Hh : forall w : World, lastHead (hideCursor w) = lastHead w).
  { intros w. apply (hideCursor_effect w). }
  split; [exact Hh|]. split; [exact Hh|].
  intros e s s' Hstep Hl Hn.
  assert (Hsch : forall o,
             lastHead (scheduleMeasurement (view s) o (world s)) = None ->
             guard_ok (view s) = false).
  { intros o H. destruct (guard_ok (view s)) eqn:Hg; [|reflexivity].
    rewrite (scheduleMeasurement_lastHead _ o _ Hg) in H. contradiction. }
  destruct e; simpl in Hstep.
  - injection Hstep as <-. contradiction.
  - injection Hstep as <-. left. split; [reflexivity|]. exact (Hsch _ Hn).
  - destruct (listening _ _); [|discriminate]. injection Hstep as <-.
    left. split; [reflexivity|]. exact (Hsch _ Hn).
  - destruct (resizeObserver (world s)) as [[|]|]; try discriminate.
    injection Hstep as <-. left. split; [reflexivity|]. exact (Hsch _ Hn).
  - destruct (listening _ _); [|discriminate]. injection Hstep as <-.
    left. split; [reflexivity|]. exact (Hsch _ Hn).
  - destruct (listening _ _); [|discriminate]. injection Hstep as <-.
    left. split; [reflexivity|]. exact (Hsch _ Hn).
  - destruct (listening _ _); [|discriminate]. injection Hstep as <-.
    simpl in Hn. unfold onBlur in Hn. rewrite Hh in Hn. contradiction.
  - injection Hstep as <-. simpl in Hn. left.
    unfold update in Hn. simpl.
    destruct (docChanged u || selectionSet u || viewportChanged u
              || geometryChanged u || focusChanged u);
      [split; [reflexivity | exact (Hsch _ Hn)] | contradiction].
  - destruct (measureRequests (world s)) as [|n]; [discriminate|].
    destruct (readMeasurement_total (view s) (world s)) as (d & Hr & _).
    rewrite Hr in Hstep. injection Hstep as <-. simpl in Hn. contradiction.
  - destruct (inflight s) as [|d rest] eqn:Ei; [discriminate|].
    injection Hstep as <-. simpl in Hn. right. split; [reflexivity|].
    exists d, rest. split; [reflexivity|].
    destruct (shows d) eqn:Es; [|reflexivity].
    exfalso. exact (applyMeasurement_lastHead d (world s) Es Hl Hn).
  - destruct (fireTimeout id (world s)) as [w'|] eqn:E; [|discriminate].
    injection Hstep as <-. apply fireTimeout_inv in E.
    destruct E as (due & _ & _ & ->). simpl in Hn. contradiction.
  - destruct (Z.leb_spec 0 dt); [|discriminate].
    injection Hstep as <-. simpl in Hn. contradiction.
  - injection Hstep as <-. unfold with_world in Hn. cbn [world] in Hn.
    rewrite destroy_fields in Hn. simpl in Hn. contradiction.
Qed.

Lemma restartPhaseTimer_fires (w : World) :
  match phaseTimer w with
  | Some id => exists due, timers w = [(id, due)]
  | None => timers w = []
  end ->
  exists w3,
    fireTimeout (nextTimerId w)
      (set_now (now w + PHASE_DELAY) (restartPhaseTimer w)) = Some w3
    /\ dimmed w3 = true /\ phaseTimer w3 = None /\ timers w3 = [].
Proof.
  world_cases w. unfold restartPhaseTimer, fireTimeout, dimmed. simpl.
  intros W1.
  assert (E : match pt with
              | Some id => filter (fun t => negb (Z.eqb (fst t) id)) ti
              | None => ti
              end = []).
  { destruct pt as [id|]; [|exact W1].
    destruct W1 as [due ->]. simpl. rewrite Z.eqb_refl. reflexivity. }
  destruct pt as [id|]; simpl; rewrite E; simpl;
    rewrite Z.eqb_refl, Z.leb_refl; eexists; (split; [reflexivity|]); simpl;
    rewrite Z.eqb_refl; simpl;
    (split; [apply classList_contains_add | split; reflexivity]).
Qed.

(** C5, as the code has it.  A visible snapshot with neither force-position
    nor a head change is skipped whole, whatever its restart-phase intent.
    In every other visible write the blink timeout is restarted exactly when
    restart-phase was consumed or the head differs from the remembered one:
    the dimmed class is removed at once, the timeout that was pending is
    cancelled, so that the new one, due [PHASE_DELAY] later, is the only one;
    when it fires it adds the dimmed class, and along any run the class is
    not back before that delay has elapsed.  A forced write with the head
    unchanged and no restart-phase leaves dimmed class and timeout as they
    were. *)
Theorem blink_phase_restart (d : CursorMeasurement num) (w : World) :
  well_formed w ->
  shows d = true ->
  let w' := applyMeasurement d w in
  let moved := head_differs (lastHead w) (head d) in
  let force := forcePosition (options d) in
  let restart := restartPhase (options d) in
  (force || moved = false -> w' = w)
  /\ (force || moved = true -> restart || moved = true ->
      dimmed w' = false
      /\ (exists id,
            phaseTimer w' = Some id
            /\ timers w' = [(id, now w + PHASE_DELAY)]
            /\ phaseTimer w <> Some id
            /\ exists w3,
                 fireTimeout id (set_now (now w + PHASE_DELAY) w') = Some w3
                 /\ dimmed w3 = true /\ phaseTimer w3 = None /\ timers w3 = [])
      /\ (forall (s : System num) (es : list (Event num)) (s' : System num),
            world s = w' -> run es s = Some s' ->
            dimmed (world s') = true ->
            now w + PHASE_DELAY <= now (world s')))
  /\ (force || moved = true -> restart || moved = false ->
      dimmed w' = dimmed w
      /\ phaseTimer w' = phaseTimer w
      /\ timers w' = timers w).
Proof.
  intros W Hs w' moved force restart. subst w' moved force restart.
  unfold shows in Hs. unfold applyMeasurement.
  destruct (visible d); [|discriminate].
  destruct (rect d) as [rc|]; [|discriminate].
  destruct (hostRect d) as [hr|]; [|discriminate]. clear Hs.
  assert (G : negb (forcePosition (options d))
              && negb (head_differs (lastHead w) (head d))
              = negb (forcePosition (options d)
                      || head_differs (lastHead w) (head d))).
  { symmetry. apply negb_orb. }
  rewrite G. clear G.
  destruct (forcePosition (options d) || head_differs (lastHead w) (head d));
    simpl; (split; [intros; try reflexivity; discriminate|]);
    (split; [|intros Ha Hb; try discriminate]).
  2: { rewrite Hb. repeat split; reflexivity. }
  2: { intros; discriminate. }
  intros _ Hr. rewrite Hr.
  set (w1 := set_cursor_left _ _).
  assert (T1 : match phaseTimer w1 with
               | Some id => exists due, timers w1 = [(id, due)]
               | None => timers w1 = []
               end).
  { destruct W as (W1 & _). unfold w1. simpl.
    destruct (phaseTimer w); [apply W1 | exact W1]. }
  destruct (well_formed_restartPhaseTimer w1) as (_ & Hd & Hp & Ht);
    [reflexivity | discriminate | exact T1 |].
  split; [exact Hd|]. split.
  - exists (nextTimerId w). split; [exact Hp|]. split; [exact Ht|]. split.
    + destruct W as (W1 & _). intros E. rewrite E in W1.
      destruct W1 as [_ W1]. lia.
    + apply (restartPhaseTimer_fires w1 T1).
  - intros s es s' Hw Hrun Hdim.
    assert (D : not_dimmed_before (now w + PHASE_DELAY) (world s')).
    { apply (run_world _ es s s' (not_dimmed_before_stable _) Hrun).
      rewrite Hw. unfold not_dimmed_before. rewrite Hd, Ht.
      split; [discriminate|]. split.
      - intros id due [H|[]]. injection H as <- <-. apply Z.le_refl.
      - unfold restartPhaseTimer. simpl.
        destruct (phaseTimer w); simpl; apply Z.le_refl. }
    destruct D as (D1 & _). exact (D1 Hdim).
Qed.

Lemma scheduleMeasurement_visible (v : EditorView num) (o : UpdateOptions) (w : World) :
  overlay_visible (scheduleMeasurement v o w) = true -> overlay_visible w = true.
Proof.
  destruct (guard_ok v) eqn:Hg.
  - rewrite (scheduleMeasurement_ok v o w Hg). destruct (scheduled w); auto.
  - unfold scheduleMeasurement. rewrite (guard_ok_false v Hg).
    unfold overlay_visible. simpl.
    destruct (hideCursor_effect w) as (-> & _). discriminate.
Qed.

Lemma applyMeasurement_hides (d : CursorMeasurement num) (w : World) :
  shows d = false ->
  applyMeasurement d w = set_lastHead None (hideCursor w).
Proof.
  unfold shows, applyMeasurement.
  destruct (visible d); [|reflexivity].
  destruct (rect d); [|reflexivity].
  destruct (hostRect d); [discriminate|reflexivity].
Qed.

(** Apart from a write, no event shows a hidden overlay. *)
Lemma stays_hidden (e : Event num) (s s' : System num) :
  step e s = Some s' -> e <> EvWrite ->
  overlay_visible (world s') = true -> overlay_visible (world s) = true.
Proof.
  intros Hstep Hne.
  destruct e; simpl in Hstep; try congruence.
  - injection Hstep as <-. auto.
  - injection Hstep as <-. apply scheduleMeasurement_visible.
  - destruct (listening _ _); [|discriminate]. injection Hstep as <-.
    apply scheduleMeasurement_visible.
  - destruct (resizeObserver (world s)) as [[|]|]; try discriminate.
    injection Hstep as <-. apply scheduleMeasurement_visible.
  - destruct (listening _ _); [|discriminate]. injection Hstep as <-.
    apply scheduleMeasurement_visible.
  - destruct (listening _ _); [|discriminate]. injection Hstep as <-.
    apply scheduleMeasurement_visible.
  - destruct (listening _ _); [|discriminate]. injection Hstep as <-.
    simpl. unfold onBlur. rewrite hideCursor_hidden. discriminate.
  - injection Hstep as <-. simpl. unfold update.
    destruct (docChanged u || selectionSet u || viewportChanged u
              || geometryChanged u || focusChanged u); auto.
    apply scheduleMeasurement_visible.
  - destruct (measureRequests (world s)) as [|n]; [discriminate|].
    destruct (readMeasurement_total (view s) (world s)) as (d & Hr & _).
    rewrite Hr in Hstep. injection Hstep as <-. auto.
  - destruct (fireTimeout id (world s)) as [w'|] eqn:E; [|discriminate].
    injection Hstep as <-. apply fireTimeout_inv in E.
    destruct E as (due & _ & _ & ->). auto.
  - destruct (Z.leb_spec 0 dt); [|discriminate].
    injection Hstep as <-. auto.
  - injection Hstep as <-. unfold with_world. cbn [world].
    rewrite destroy_fields. auto.
Qed.

Lemma step_mapped_when_visible (e : Event num) (s s' : System num) :
  step e s = Some s' -> mapped_when_visible s -> mapped_when_visible s'.
Proof.
  intros Hstep (Qa & Qb).
  assert (Same : e <> EvRead -> e <> EvWrite ->
                 inflight s' = inflight s -> lastMapping s' = lastMapping s ->
                 mapped_when_visible s').
  { intros _ Hne Hi Hm. split.
    - rewrite Hi, Hm. exact Qa.
    - rewrite Hi, Hm. intros Hnil Hv. apply (Qb Hnil).
      apply (stays_hidden e s s' Hstep Hne Hv). }
  destruct e; try (apply Same; [discriminate | discriminate | | ]);
    simpl in Hstep;
    try (injection Hstep as <-; reflexivity);
    try (destruct (listening _ _); [|discriminate];
         injection Hstep as <-; reflexivity);
    try (destruct (resizeObserver (world s)) as [[|]|]; try discriminate;
         injection Hstep as <-; reflexivity);
    try (destruct (fireTimeout id (world s)) as [w'|]; [|discriminate];
         injection Hstep as <-; reflexivity);
    try (destruct (Z.leb_spec 0 dt); [|discriminate];
         injection Hstep as <-; reflexivity).
  - destruct (measureRequests (world s)) as [|n]; [discriminate|].
    destruct (readMeasurement_total (view s) (world s))
      as (d & Hr & _ & _ & Hv & Hs).
    rewrite Hr in Hstep. injection Hstep as <-.
    split; simpl.
    + intros l d' Hl Hd. apply app_inj_tail in Hl. destruct Hl as [_ <-].
      rewrite Hs in Hd. apply Hv in Hd. destruct Hd as [_ ->]. reflexivity.
    + intros Hnil. destruct (inflight s); discriminate.
  - destruct (inflight s) as [|d rest] eqn:Ei; [discriminate|].
    injection Hstep as <-. split; simpl.
    + intros l d' Hl. apply (Qa (d :: l) d'). rewrite Hl. reflexivity.
    + intros -> Hv. destruct (shows d) eqn:Es.
      * apply (Qa [] d eq_refl Es).
      * rewrite (applyMeasurement_hides d _ Es) in Hv.
        unfold overlay_visible in Hv. simpl in Hv.
        destruct (hideCursor_effect (world s)) as (E & _).
        rewrite E in Hv. discriminate.
Qed.

Lemma reachable_mapped_when_visible (s : System num) :
  reachable s -> mapped_when_visible s.
Proof.
  intros (v & p & es & Hrun).
  assert (H0 : mapped_when_visible (boot v p)).
  { split; simpl.
    - intros l d Hl. destruct l; discriminate.
    - intros _ Hv. exfalso.
      assert (Hh : overlay_visible (constructor v p) = false);
        [|rewrite Hh in Hv; discriminate].
      destruct (overlay_visible (constructor v p)) eqn:E; [|reflexivity].
      unfold constructor in E. apply scheduleMeasurement_visible in E.
      unfold overlay_visible in E.
      repeat match type of E with
             | context [cursor_display (register ?v ?l ?w)] =>
                 rewrite (proj1 (proj2 (proj2 (proj2 (register_fields v l w))))) in E
             end.
      destruct (page_ResizeObserver p); simpl in E;
        repeat match type of E with
               | context [cursor_display (register ?v ?l ?w)] =>
                   rewrite (proj1 (proj2 (proj2 (proj2 (register_fields v l w))))) in E
               end; simpl in E; discriminate. }
  revert Hrun H0. generalize (boot v p).
  induction es as [|e es IH]; intros s0 Hrun H0; simpl in Hrun.
  - injection Hrun as <-. exact H0.
  - destruct (step e s0) as [s1|] eqn:E; [|discriminate].
    apply (IH s1 Hrun). apply (step_mapped_when_visible e s0 s1 E H0).
Qed.

(** When the overlay is visible after a write: the snapshot shows, and the
    write was not skipped or the overlay was visible before. *)
Lemma applyMeasurement_visible (d : CursorMeasurement num) (w : World) :
  overlay_visible (applyMeasurement d w)
  = shows d
    && (forcePosition (options d)
        || head_differs (lastHead w) (head d)
        || overlay_visible w).
Proof.
  destruct (shows d) eqn:Es.
  - unfold shows in Es. unfold applyMeasurement.
    destruct (visible d); [|discriminate].
    destruct (rect d) as [rc|]; [|discriminate].
    destruct (hostRect d) as [hr|]; [|discriminate].
    destruct (forcePosition (options d)),
      (head_differs (lastHead w) (head d)); simpl; try reflexivity;
      destruct (restartPhase (options d)); simpl;
      unfold restartPhaseTimer, overlay_visible; simpl;
      destruct (phaseTimer w); reflexivity.
  - rewrite (applyMeasurement_hides d w Es). apply hideCursor_hidden.
Qed.

(** A trigger event that forces the position is a call of
    [scheduleMeasurement] with that intent. *)
Lemma forced_trigger_step (e : Event num) (s s1 : System num) :
  forced_trigger e = true -> step e s = Some s1 ->
  exists o,
    truthy (opt_forcePosition o) = true
    /\ s1 = with_world s (scheduleMeasurement (view s) o (world s)).
Proof.
  intros Hf Hstep. destruct e; try discriminate Hf; simpl in Hstep.
  - destruct (listening _ _); [|discriminate]. injection Hstep as <-.
    exists position_options. split; reflexivity.
  - destruct (resizeObserver (world s)) as [[|]|]; try discriminate.
    injection Hstep as <-. exists position_options. split; reflexivity.
  - destruct (listening _ _); [|discriminate]. injection Hstep as <-.
    exists position_options. split; reflexivity.
  - destruct (listening _ _); [|discriminate]. injection Hstep as <-.
    exists focus_options. split; reflexivity.
  - injection Hstep as <-. simpl in Hf. unfold update. rewrite Hf.
    eexists. split; [|reflexivity]. simpl.
    destruct (docChanged u), (selectionSet u), (viewportChanged u),
      (geometryChanged u), (focusChanged u); try reflexivity; discriminate.
Qed.

(** After a forced trigger, its read and its write, the overlay is visible
    exactly when the editor has focus, the selection is collapsed and the
    mapping gave a rectangle. *)
Lemma forced_cycle_iff (s s' : System num) (o : UpdateOptions) :
  truthy (opt_forcePosition o) = true ->
  inflight s = [] ->
  run [EvRead; EvWrite]
    (with_world s (scheduleMeasurement (view s) o (world s))) = Some s' ->
  overlay_visible (world s') = true
  <-> (hasFocus (view s') = true
       /\ isCollapsedSelection (view s') = true
       /\ lastMapping s' = Some true).
Proof.
  intros Hf Hi Hrun.
  set (w1 := scheduleMeasurement (view s) o (world s)) in *.
  cbn [run] in Hrun. cbn [step] in Hrun.
  unfold with_world in Hrun. cbn [world view inflight lastMapping] in Hrun.
  destruct (measureRequests w1) as [|n]; [discriminate|].
  destruct (readMeasurement_total (view s) w1) as (d & Hr & Ho & _ & Hv & Hs).
  rewrite Hr, Hi in Hrun. cbn [world view inflight lastMapping app] in Hrun.
  injection Hrun as <-. cbn [world view lastMapping].
  rewrite applyMeasurement_visible, Hs.
  assert (F : guard_ok (view s) = true -> forcePosition (options d) = true).
  { intros Hg. rewrite Ho. unfold w1.
    rewrite (scheduleMeasurement_ok (view s) o (world s) Hg).
    destruct (scheduled (world s)); simpl; rewrite Hf; apply orb_true_r. }
  unfold guard_ok in *. unfold mapping_outcome in *.
  destruct (hasFocus (view s)), (isCollapsedSelection (view s)); simpl in *;
    try (destruct (visible d) eqn:Ev;
         [destruct (proj1 Hv eq_refl) as [Hx _]; discriminate Hx
         |split; [discriminate | intros (Ha & Hb & _); discriminate]]).
  destruct (visible d) eqn:Ev.
  - rewrite (F eq_refl). simpl. destruct (proj1 Hv eq_refl) as [_ Hm].
    rewrite Hm. split; auto.
  - simpl. split; [discriminate|]. intros (_ & _ & Hm).
    assert (Hx : false = true); [|discriminate Hx].
    apply Hv. split; [reflexivity|].
    destruct (coordsAtPos (view s) (selection_main_head (view s)) (-1))
      as [[rc|]|]; simpl in *; congruence.
Qed.

(** C2, as the code has it.  In every reachable state: a hidden overlay has
    display none, no blink timeout pending and no dimmed class; once every
    snapshot read is written, a visible overlay means that the last mapping
    gave a rectangle; a trigger that finds the editor without focus or the
    selection not collapsed, and a write of a snapshot that does not show,
    leave the overlay hidden with the timeout cancelled; a read returns a
    snapshot that shows exactly when the editor has focus, the selection is
    collapsed and the mapping gave a rectangle; the only event that shows
    a hidden overlay is the write of a snapshot that shows; after a write the
    overlay is visible exactly when the snapshot shows and the write was not
    skipped or the overlay was visible already; and after a trigger that
    forces the position, its read and its write, with no other snapshot
    awaiting, the overlay is visible if and only if the editor has focus, the
    selection is collapsed and the last mapping gave a rectangle. *)
Theorem overlay_visibility (s : System num) :
  reachable s ->
  (overlay_visible (world s) = false ->
     cursor_display (world s) = "none"
     /\ phaseTimer (world s) = None
     /\ timers (world s) = []
     /\ dimmed (world s) = false)
  /\ (inflight s = [] -> overlay_visible (world s) = true ->
      lastMapping s = Some true)
  /\ (forall o : UpdateOptions,
        hasFocus (view s) = false \/ isCollapsedSelection (view s) = false ->
        let w' := scheduleMeasurement (view s) o (world s) in
        overlay_visible w' = false /\ phaseTimer w' = None /\ timers w' = [])
  /\ (forall d : CursorMeasurement num,
        shows d = false ->
        let w' := applyMeasurement d (world s) in
        overlay_visible w' = false /\ phaseTimer w' = None /\ timers w' = [])
  /\ (exists w' d,
        readMeasurement (view s) (world s) = Normal (w', d)
        /\ (shows d = true <->
            hasFocus (view s) = true
            /\ isCollapsedSelection (view s) = true
            /\ mapping_outcome (view s) = Some true))
  /\ (forall (e : Event num) (s' : System num),
        step e s = Some s' ->
        overlay_visible (world s) = false ->
        overlay_visible (world s') = true ->
        e = EvWrite
        /\ exists d rest, inflight s = d :: rest /\ shows d = true)
  /\ (forall d : CursorMeasurement num,
        overlay_visible (applyMeasurement d (world s))
        = shows d
          && (forcePosition (options d)
              || head_differs (lastHead (world s)) (head d)
              || overlay_visible (world s)))
  /\ (forall (e : Event num) (s' : System num),
        forced_trigger e = true ->
        inflight s = [] ->
        run [e; EvRead; EvWrite] s = Some s' ->
        (overlay_visible (world s') = true
         <-> hasFocus (view s') = true
             /\ isCollapsedSelection (view s') = true
             /\ lastMapping s' = Some true)).
Proof.
  intros R. pose proof (reachable_well_formed s R) as W.
  assert (Hidden : forall w, well_formed w -> overlay_visible w = false ->
            cursor_display w = "none" /\ phaseTimer w = None
            /\ timers w = [] /\ dimmed w = false).
  { intros w (W1 & W2 & _) Hv. destruct (W2 Hv) as (Hd & Hp & Hm).
    rewrite Hp in W1. auto. }
  split; [apply Hidden, W|].
  split; [apply (reachable_mapped_when_visible s R)|].
  split; [|split; [|split; [|split; [|split]]]].
  - intros o Hg w'. subst w'.
    assert (Hg' : guard_ok (view s) = false).
    { unfold guard_ok. destruct Hg as [-> | ->];
        [reflexivity | apply andb_false_r]. }
    pose proof (well_formed_scheduleMeasurement (view s) o _ W) as W'.
    assert (Hv : overlay_visible (scheduleMeasurement (view s) o (world s)) = false).
    { unfold scheduleMeasurement. rewrite (guard_ok_false _ Hg').
      apply hideCursor_hidden. }
    destruct (Hidden _ W' Hv) as (_ & Hp & Ht & _). auto.
  - intros d Hs w'. subst w'.
    pose proof (well_formed_applyMeasurement d _ W) as W'.
    assert (Hv : overlay_visible (applyMeasurement d (world s)) = false).
    { rewrite (applyMeasurement_hides d _ Hs). apply hideCursor_hidden. }
    destruct (Hidden _ W' Hv) as (_ & Hp & Ht & _). auto.
  - destruct (readMeasurement_total (view s) (world s))
      as (d & Hr & _ & _ & Hv & Hs).
    eexists; exists d. split; [exact Hr|]. rewrite Hs, Hv.
    unfold guard_ok. rewrite andb_true_iff. tauto.
  - intros e s' Hstep Hh Hv.
    assert (He : e = EvWrite).
    { destruct e; try reflexivity;
        (rewrite (stays_hidden _ s s' Hstep) in Hh;
         [discriminate | discriminate | exact Hv]). }
    split; [exact He|]. subst e. simpl in Hstep.
    destruct (inflight s) as [|d rest]; [discriminate|].
    injection Hstep as <-. simpl in Hv.
    exists d, rest. split; [reflexivity|].
    destruct (shows d) eqn:Es; [reflexivity|].
    rewrite (applyMeasurement_hides d _ Es) in Hv.
    unfold overlay_visible in Hv. simpl in Hv.
    destruct (hideCursor_effect (world s)) as (E & _). rewrite E in Hv.
    discriminate.
  - intros d. apply applyMeasurement_visible.
  - intros e s' Hf Hi Hrun.
    cbn [run] in Hrun.
    destruct (step e s) as [s1|] eqn:E; [|discriminate].
    destruct (forced_trigger_step e s s1 Hf E) as (o & Ho & ->).
    apply (forced_cycle_iff s s' o Ho Hi). exact Hrun.
Qed.

(** ** More on the code the properties above rest on *)

Lemma page_frame_refl (w : World) : page_frame w w.
Proof. unfold page_frame. repeat split; auto. Qed.

Lemma page_frame_hideCursor (w : World) : page_frame w (hideCursor w).
Proof.
  world_cases w. unfold page_frame, hideCursor. simpl.
  destruct pt; simpl; repeat split; auto.
Qed.

Lemma page_frame_lastHead (w w' : World) (h : option Z) :
  page_frame w w' -> page_frame w (set_lastHead h w').
Proof. unfold page_frame. simpl. auto. Qed.

Lemma page_frame_scheduleMeasurement (v : EditorView num) (o : UpdateOptions)
    (w : World) :
  page_frame w (scheduleMeasurement v o w).
Proof.
  destruct (guard_ok v) eqn:Hg.
  - rewrite (scheduleMeasurement_ok v o w Hg).
    destruct (scheduled w); unfold page_frame; simpl; repeat split; auto.
  - unfold scheduleMeasurement. rewrite (guard_ok_false v Hg).
    apply page_frame_lastHead, page_frame_hideCursor.
Qed.

Lemma page_frame_restartPhaseTimer (w : World) :
  page_frame w (restartPhaseTimer w).
Proof.
  world_cases w. unfold page_frame, restartPhaseTimer. simpl.
  destruct pt; simpl; repeat split; auto.
Qed.

Lemma page_frame_applyMeasurement (d : CursorMeasurement num) (w : World) :
  page_frame w (applyMeasurement d w).
Proof.
  assert (Hh : page_frame w (set_lastHead None (hideCursor w)))
    by apply page_frame_lastHead, page_frame_hideCursor.
  unfold applyMeasurement.
  destruct (visible d); [|exact Hh].
  destruct (rect d) as [rc|]; [|exact Hh].
  destruct (hostRect d) as [hr|]; [|exact Hh].
  destruct (negb (forcePosition (options d))
            && negb (head_differs (lastHead w) (head d)));
    [apply page_frame_refl|].
  destruct (restartPhase (options d) || head_differs (lastHead w) (head d)).
  - match goal with
    | |- page_frame w (restartPhaseTimer ?w1) =>
        pose proof (page_frame_restartPhaseTimer w1) as F
    end.
    unfold page_frame in *. simpl in *. exact F.
  - unfold page_frame. simpl. repeat split; auto.
Qed.

Lemma page_frame_fireTimeout (id : Z) (w w' : World) :
  fireTimeout id w = Some w' -> page_frame w w'.
Proof.
  intros H. apply fireTimeout_inv in H. destruct H as (due & _ & _ & ->).
  unfold page_frame, phaseTimerCallback, clearTimeout. simpl.
  repeat split; auto.
Qed.

(** A property that the frame carries over and [destroy] keeps is kept by
    every operation. *)
Lemma frame_stable (P : World -> Prop) :
  (forall w w', page_frame w w' -> P w -> P w') ->
  (forall (v : EditorView num) w, P w -> P (destroy v w)) ->
  Stable P.
Proof.
  intros Hf Hd. constructor.
  - intros v o w. apply Hf, page_frame_scheduleMeasurement.
  - intros w. apply Hf, page_frame_hideCursor.
  - intros n w. apply Hf. unfold page_frame. simpl. repeat split; auto.
  - intros d w. apply Hf, page_frame_applyMeasurement.
  - intros id w w' Hw H. exact (Hf w w' (page_frame_fireTimeout id w w' H) Hw).
  - intros dt w _. apply Hf. unfold page_frame. simpl. repeat split; auto.
  - exact Hd.
Qed.

Lemma classList_remove_absent (c : string) (l : list string) :
  classList_contains c l = false -> classList_remove c l = l.
Proof.
  unfold classList_contains, classList_remove.
  induction l as [|x l IH]; simpl; [reflexivity|].
  intros H. apply orb_false_iff in H. destruct H as [Hx Hl].
  rewrite String.eqb_sym, Hx. simpl. rewrite (IH Hl). reflexivity.
Qed.

Lemma classList_remove_add (c : string) (l : list string) :
  classList_remove c (classList_add c l) = classList_remove c l.
Proof.
  unfold classList_add. destruct (classList_contains c l); [reflexivity|].
  unfold classList_remove. rewrite filter_app. simpl.
  rewrite String.eqb_refl. simpl. apply app_nil_r.
Qed.


(** X14.  No event but [destroy] touches what the constructor set up: the
    listeners, the cleanup closures, the observer, the classes of the
    editor's root, the attachment and the position style of the overlay stay
    as they are, and the overlay's class list changes at most by the dimmed
    class. *)
Theorem only_destroy_touches_page (e : Event num) (s s' : System num) :
  step e s = Some s' -> e <> EvDestroy ->
  page_frame (world s) (world s').
Proof.
  intros Hstep Hne.
  destruct e; simpl in Hstep; try congruence.
  - injection Hstep as <-. apply page_frame_refl.
  - injection Hstep as <-. apply page_frame_scheduleMeasurement.
  - destruct (listening _ _); [|discriminate]. injection Hstep as <-.
    apply page_frame_scheduleMeasurement.
  - destruct (resizeObserver (world s)) as [[|]|]; try discriminate.
    injection Hstep as <-. apply page_frame_scheduleMeasurement.
  - destruct (listening _ _); [|discriminate]. injection Hstep as <-.
    apply page_frame_scheduleMeasurement.
  - destruct (listening _ _); [|discriminate]. injection Hstep as <-.
    apply page_frame_scheduleMeasurement.
  - destruct (listening _ _); [|discriminate]. injection Hstep as <-.
    apply page_frame_hideCursor.
  - injection Hstep as <-. unfold with_world. cbn [world].
    apply (update_schedule (page_frame (world s))).
    + intros o. apply page_frame_scheduleMeasurement.
    + apply page_frame_refl.
  - destruct (measureRequests (world s)) as [|n]; [discriminate|].
    destruct (readMeasurement_total (view s) (world s)) as (d & Hr & _).
    rewrite Hr in Hstep. injection Hstep as <-.
    unfold page_frame. simpl. repeat split; auto.
  - destruct (inflight s) as [|d rest]; [discriminate|].
    injection Hstep as <-. apply page_frame_applyMeasurement.
  - destruct (fireTimeout id (world s)) as [w'|] eqn:E; [|discriminate].
    injection Hstep as <-. apply (page_frame_fireTimeout id _ _ E).
  - destruct (Z.leb_spec 0 dt); [|discriminate].
    injection Hstep as <-. unfold page_frame. simpl. repeat split; auto.
Qed.

(** The world the constructor leaves, field by field. *)
Lemma constructor_fields (v : EditorView num) (p : Page) :
  constructor v p
  = {| cursor_classList := [VIRTUAL_CURSOR_CLASS];
       cursor_display := "none";
       cursor_position := "absolute";
       cursor_left := "0";
       cursor_top := "0";
       cursor_height := "";
       cursor_attached := true;
       phaseTimer := None;
       lastHead := None;
       resizeObserver := if page_ResizeObserver p then Some true else None;
       cleanup := [(OwnerDocument, "selectionchange"); (ScrollDOM, "scroll");
                   (DefaultView, "resize"); (ViewDOM, "blur");
                   (ViewDOM, "focus")];
       scheduled := guard_ok v;
       pendingOptions :=
         if guard_ok v
         then Some {| forcePosition := true; restartPhase := true |}
         else None;
       now := page_now p;
       timers := [];
       nextTimerId := page_nextTimerId p;
       listeners := constructor_listeners v;
       dom_classList :=
         classList_add VIRTUAL_CURSOR_ENABLED_CLASS (page_dom_classList p);
       measureRequests := if guard_ok v then 1%nat else 0%nat |}.
Proof.
  destruct v as [f e h c r dv]. destruct p as [ro t0 id0 cs].
  destruct f, e, dv, ro; vm_compute; reflexivity.
Qed.

Lemma overlay_classes_stable : Stable overlay_classes.
Proof.
  apply frame_stable.
  - intros w w' (_ & _ & _ & _ & _ & Hp & Hc) (P1 & P2).
    split; [congruence|].
    destruct P2 as [E|E]; rewrite E in Hc;
      destruct Hc as [-> | [-> | ->]]; vm_compute; auto.
  - intros v w (P1 & P2). rewrite destroy_fields. exact (conj P1 P2).
Qed.

(** X13.  In every reachable state the overlay is positioned absolutely and
    its class list is the base class alone, or the base class followed by the
    dimmed class: the base class is never removed and nothing else is ever
    added. *)
Theorem overlay_classes_kept (s : System num) :
  reachable s ->
  cursor_position (world s) = "absolute"
  /\ (cursor_classList (world s) = [VIRTUAL_CURSOR_CLASS]
      \/ cursor_classList (world s)
         = [VIRTUAL_CURSOR_CLASS; VIRTUAL_CURSOR_PHASE_CLASS])
  /\ classList_contains VIRTUAL_CURSOR_CLASS (cursor_classList (world s)) = true.
Proof.
  intros (v & p & es & Hrun).
  assert (H : overlay_classes (world s)).
  { apply (run_world overlay_classes es (boot v p) s overlay_classes_stable Hrun).
    unfold boot. cbn [world]. rewrite constructor_fields.
    unfold overlay_classes. simpl. auto. }
  destruct H as (P1 & P2). split; [exact P1|]. split; [exact P2|].
  destruct P2 as [-> | ->]; vm_compute; reflexivity.
Qed.

Lemma constructor_listeners_covered (v : EditorView num) (p : Page) :
  listeners_covered (constructor v p).
Proof.
  rewrite constructor_fields. unfold listeners_covered, constructor_listeners.
  simpl. intros l Hl. destruct (defaultView v); simpl in Hl; intuition.
Qed.

(** X1.  The constructor leaves the overlay attached and hidden at the
    origin, with its base class only, no timeout and no remembered head; the
    editor's root carries the marker class; the five cleanup closures are
    stored and their listeners registered (the window's only when there is a
    window).  It asks for exactly one measurement, forced and restarting the
    phase, when the editor has focus and the selection is collapsed, and for
    none otherwise. *)
Theorem constructor_initial (v : EditorView num) (p : Page) :
  let w := constructor v p in
  cursor_attached w = true
  /\ cursor_display w = "none"
  /\ cursor_position w = "absolute"
  /\ cursor_left w = "0"
  /\ cursor_top w = "0"
  /\ cursor_classList w = [VIRTUAL_CURSOR_CLASS]
  /\ phaseTimer w = None
  /\ timers w = []
  /\ lastHead w = None
  /\ classList_contains VIRTUAL_CURSOR_ENABLED_CLASS (dom_classList w) = true
  /\ listeners w = constructor_listeners v
  /\ (forall l, In l (listeners w) -> In l (cleanup w))
  /\ (guard_ok v = true ->
      pendingOptions w = Some {| forcePosition := true; restartPhase := true |}
      /\ scheduled w = true
      /\ measureRequests w = 1%nat)
  /\ (guard_ok v = false ->
      pendingOptions w = None
      /\ scheduled w = false
      /\ measureRequests w = 0%nat).
Proof.
  intros w. subst w. rewrite constructor_fields. simpl.
  repeat (split; [reflexivity|]).
  split; [apply classList_contains_add|].
  split; [reflexivity|].
  split.
  - pose proof (constructor_listeners_covered v p) as C.
    rewrite constructor_fields in C. exact C.
  - split; intros ->; repeat split; reflexivity.
Qed.

Lemma observer_off_stable :
  Stable (fun w => resizeObserver w <> Some true).
Proof.
  apply frame_stable.
  - intros w w' (_ & _ & _ & Hr & _) H. congruence.
  - intros v w H. rewrite destroy_fields. simpl.
    destruct (resizeObserver w); discriminate.
Qed.

(** X2.  Where [ResizeObserver] is not defined the constructor builds the
    same world as where it is, but for the observer, which is missing; and in
    no state reached from there does the observer's callback run. *)
Theorem missing_ResizeObserver_degrades (v : EditorView num) (p : Page) :
  page_ResizeObserver p = false ->
  resizeObserver (constructor v p) = None
  /\ constructor v p
     = set_resizeObserver None
         (constructor v {| page_ResizeObserver := true;
                           page_now := page_now p;
                           page_nextTimerId := page_nextTimerId p;
                           page_dom_classList := page_dom_classList p |})
  /\ forall es s, run es (boot v p) = Some s -> step EvResizeObserver s = None.
Proof.
  intros Hp. rewrite !constructor_fields. rewrite Hp. simpl.
  split; [reflexivity|]. split; [reflexivity|].
  intros es s Hrun.
  assert (H : resizeObserver (world s) <> Some true).
  { apply (run_world _ es (boot v p) s observer_off_stable Hrun).
    unfold boot. cbn [world]. rewrite constructor_fields, Hp. discriminate. }
  simpl. destruct (resizeObserver (world s)) as [[|]|]; congruence.
Qed.





Lemma classList_contains_add_other (c e : string) (l : list string) :
  c <> e ->
  classList_contains c (classList_add e l) = classList_contains c l.
Proof.
  intros Hne. unfold classList_add.
  destruct (classList_contains e l); [reflexivity|].
  unfold classList_contains. rewrite existsb_app. simpl.
  destruct (String.eqb_spec c e) as [->|_]; [contradiction|].
  rewrite !orb_false_r. reflexivity.
Qed.

Lemma classList_contains_remove_other (c e : string) (l : list string) :
  c <> e ->
  classList_contains c (classList_remove e l) = classList_contains c l.
Proof.
  intros Hne. unfold classList_contains, classList_remove.
  induction l as [|x l IH]; simpl; [reflexivity|].
  destruct (String.eqb_spec x e) as [->|Hx]; simpl.
  - destruct (String.eqb_spec c e) as [->|_]; [contradiction|]. exact IH.
  - rewrite IH. reflexivity.
Qed.

(** X4.  Of the classes of the editor's root, the controller writes the
    marker only.  The constructor leaves the marker present and every other
    class present exactly when it was on the page; [destroy] leaves the
    marker absent and every other class present exactly when it was before
    the call; and [destroy] called on what the constructor built gives back
    the class list the constructor found, less the marker. *)
Theorem marker_class_only (v v' : EditorView num) (p : Page) (w : World) :
  (classList_contains VIRTUAL_CURSOR_ENABLED_CLASS
     (dom_classList (constructor v p)) = true
   /\ forall c, c <> VIRTUAL_CURSOR_ENABLED_CLASS ->
        classList_contains c (dom_classList (constructor v p))
        = classList_contains c (page_dom_classList p))
  /\ (classList_contains VIRTUAL_CURSOR_ENABLED_CLASS
        (dom_classList (destroy v' w)) = false
      /\ forall c, c <> VIRTUAL_CURSOR_ENABLED_CLASS ->
           classList_contains c (dom_classList (destroy v' w))
           = classList_contains c (dom_classList w))
  /\ dom_classList (destroy v' (constructor v p))
     = classList_remove VIRTUAL_CURSOR_ENABLED_CLASS (page_dom_classList p)
  /\ (classList_contains VIRTUAL_CURSOR_ENABLED_CLASS (page_dom_classList p)
      = false ->
      dom_classList (destroy v' (constructor v p)) = page_dom_classList p).
Proof.
  assert (E : dom_classList (destroy v' (constructor v p))
              = classList_remove VIRTUAL_CURSOR_ENABLED_CLASS
                  (page_dom_classList p)).
  { rewrite destroy_fields. cbn [dom_classList].
    rewrite constructor_fields. cbn [dom_classList].
    apply classList_remove_add. }
  split; [|split; [|split]].
  - rewrite constructor_fields. cbn [dom_classList].
    split; [apply classList_contains_add|].
    intros c Hc. apply classList_contains_add_other, Hc.
  - rewrite destroy_fields. cbn [dom_classList].
    split; [apply classList_contains_remove|].
    intros c Hc. apply classList_contains_remove_other, Hc.
  - exact E.
  - intros Ha. rewrite E. apply classList_remove_absent, Ha.
Qed.

Lemma timers_due_soon_stable : Stable timers_due_soon.
Proof.
  assert (Hh : forall w, timers_due_soon w -> timers_due_soon (hideCursor w)).
  { intros w H. world_cases w. unfold timers_due_soon, hideCursor in *.
    simpl in *. destruct pt; simpl; auto.
    intros id due Hin. apply filter_In in Hin. destruct Hin as [Hin _]. eauto. }
  constructor.
  - intros v o w H. destruct (guard_ok v) eqn:Hg.
    + rewrite (scheduleMeasurement_ok v o w Hg).
      destruct (scheduled w); exact H.
    + unfold scheduleMeasurement. rewrite (guard_ok_false v Hg).
      exact (Hh w H).
  - exact Hh.
  - intros n w H. exact H.
  - intros d w H.
    assert (Hhide : timers_due_soon (set_lastHead None (hideCursor w)))
      by exact (Hh w H).
    unfold applyMeasurement.
    destruct (visible d); [|exact Hhide].
    destruct (rect d) as [rc|]; [|exact Hhide].
    destruct (hostRect d) as [hr|]; [|exact Hhide].
    destruct (negb (forcePosition (options d))
              && negb (head_differs (lastHead w) (head d))); [exact H|].
    destruct (restartPhase (options d) || head_differs (lastHead w) (head d));
      [|exact H].
    world_cases w. unfold timers_due_soon, restartPhaseTimer in *.
    simpl in *. intros id due Hin.
    destruct pt; simpl in Hin; apply in_app_or in Hin;
      destruct Hin as [Hin|[Hin|[]]];
      try (injection Hin as <- <-; apply Z.le_refl); eauto;
      apply filter_In in Hin; destruct Hin as [Hin _]; eauto.
  - intros id w w' H Hf. apply fireTimeout_inv in Hf.
    destruct Hf as (due & _ & _ & ->).
    unfold timers_due_soon, phaseTimerCallback, clearTimeout in *. simpl.
    intros i d Hin. apply filter_In in Hin. destruct Hin as [Hin _]. eauto.
  - intros dt w Hdt H. unfold timers_due_soon in *. simpl.
    intros id due Hin. specialize (H id due Hin). lia.
  - intros v w H. rewrite destroy_fields. unfold timers_due_soon in *. simpl.
    intros id due Hin. destruct (phaseTimer w); eauto.
    apply filter_In in Hin. destruct Hin as [Hin _]. eauto.
Qed.

(** X5.  In every reachable state the window holds at most one timeout of the
    controller.  Either none is pending and [phaseTimer] is null, or exactly
    one is, it is the one [phaseTimer] names, it is due within [PHASE_DELAY]
    of now, the overlay is visible and not dimmed, and the ids handed out
    later are larger. *)
Theorem one_blink_timeout (s : System num) :
  reachable s ->
  (phaseTimer (world s) = None /\ timers (world s) = [])
  \/ (exists id due,
        phaseTimer (world s) = Some id
        /\ timers (world s) = [(id, due)]
        /\ due <= now (world s) + PHASE_DELAY
        /\ id < nextTimerId (world s)
        /\ overlay_visible (world s) = true
        /\ dimmed (world s) = false).
Proof.
  intros R. pose proof (reachable_well_formed s R) as (W1 & W2 & W3 & W4).
  assert (D : timers_due_soon (world s)).
  { destruct R as (v & p & es & Hrun).
    apply (run_world _ es (boot v p) s timers_due_soon_stable Hrun).
    unfold boot. cbn [world]. rewrite constructor_fields.
    unfold timers_due_soon. simpl. intros id due []. }
  destruct (phaseTimer (world s)) as [id|] eqn:E.
  - right. destruct W1 as [[due Ht] Hid]. exists id, due.
    split; [reflexivity|]. split; [exact Ht|].
    split; [apply (D id due); rewrite Ht; left; reflexivity|].
    split; [exact Hid|].
    split; [|apply W3; discriminate].
    destruct (overlay_visible (world s)) eqn:Ev; [reflexivity|].
    destruct (W2 eq_refl) as (_ & Hp & _). discriminate.
  - left. auto.
Qed.

(** Apart from a timeout that fires, no event dims the overlay. *)
Lemma stays_undimmed (e : Event num) (s s' : System num) :
  step e s = Some s' -> (forall id, e <> EvTimeout id) ->
  dimmed (world s') = true -> dimmed (world s) = true.
Proof.
  intros Hstep Hne.
  assert (Hh : forall w, dimmed (hideCursor w) = true -> dimmed w = true).
  { intros w H. destruct (hideCursor_effect w) as (_ & Hd & _). congruence. }
  assert (Hs : forall (v : EditorView num) o w,
             dimmed (scheduleMeasurement v o w) = true -> dimmed w = true).
  { intros v o w. destruct (guard_ok v) eqn:Hg.
    - rewrite (scheduleMeasurement_ok v o w Hg). destruct (scheduled w); auto.
    - unfold scheduleMeasurement. rewrite (guard_ok_false v Hg). apply Hh. }
  destruct e; simpl in Hstep.
  - injection Hstep as <-. auto.
  - injection Hstep as <-. apply Hs.
  - destruct (listening _ _); [|discriminate]. injection Hstep as <-. apply Hs.
  - destruct (resizeObserver (world s)) as [[|]|]; try discriminate.
    injection Hstep as <-. apply Hs.
  - destruct (listening _ _); [|discriminate]. injection Hstep as <-. apply Hs.
  - destruct (listening _ _); [|discriminate]. injection Hstep as <-. apply Hs.
  - destruct (listening _ _); [|discriminate]. injection Hstep as <-. apply Hh.
  - injection Hstep as <-. unfold with_world. cbn [world]. unfold update.
    destruct (docChanged u || selectionSet u || viewportChanged u
              || geometryChanged u || focusChanged u); auto.
    apply Hs.
  - destruct (measureRequests (world s)) as [|n]; [discriminate|].
    destruct (readMeasurement_total (view s) (world s)) as (d & Hr & _).
    rewrite Hr in Hstep. injection Hstep as <-. auto.
  - destruct (inflight s) as [|d rest]; [discriminate|].
    injection Hstep as <-. cbn [world].
    unfold applyMeasurement.
    destruct (visible d); [|apply Hh].
    destruct (rect d) as [rc|]; [|apply Hh].
    destruct (hostRect d) as [hr|]; [|apply Hh].
    destruct (negb (forcePosition (options d))
              && negb (head_differs (lastHead (world s)) (head d))); [auto|].
    destruct (restartPhase (options d)
              || head_differs (lastHead (world s)) (head d)); [|auto].
    unfold restartPhaseTimer, dimmed. simpl.
    destruct (phaseTimer (world s)); simpl;
      rewrite classList_contains_remove; discriminate.
  - exfalso. exact (Hne id eq_refl).
  - destruct (Z.leb_spec 0 dt); [|discriminate].
    injection Hstep as <-. auto.
  - injection Hstep as <-. unfold with_world. cbn [world].
    rewrite destroy_fields. auto.
Qed.

(** X6.  The dimmed class is only on a visible overlay with no timeout
    pending, and only a timeout that fires puts it there: the event that
    takes a reachable state from not dimmed to dimmed is the firing of the
    timeout [phaseTimer] names, at or after its due time. *)
Theorem dimmed_only_by_timeout (s : System num) :
  reachable s ->
  (dimmed (world s) = true ->
     overlay_visible (world s) = true
     /\ phaseTimer (world s) = None
     /\ timers (world s) = [])
  /\ (forall e s',
        step e s = Some s' ->
        dimmed (world s) = false -> dimmed (world s') = true ->
        exists id due,
          e = EvTimeout id
          /\ phaseTimer (world s) = Some id
          /\ timers (world s) = [(id, due)]
          /\ due <= now (world s)).
Proof.
  intros R. pose proof (reachable_well_formed s R) as (W1 & W2 & W3 & W4).
  split.
  - intros Hd.
    assert (Hp : phaseTimer (world s) = None).
    { destruct (phaseTimer (world s)) eqn:E; [|reflexivity].
      rewrite W3 in Hd; [discriminate|discriminate]. }
    split; [|split; [exact Hp | rewrite Hp in W1; exact W1]].
    destruct (overlay_visible (world s)) eqn:Ev; [reflexivity|].
    destruct (W2 eq_refl) as (_ & _ & Hm). congruence.
  - intros e s' Hstep Hd Hd'.
    assert (He : exists id, e = EvTimeout id).
    { destruct e; try (rewrite (stays_undimmed _ s s' Hstep) in Hd;
                       [discriminate | intros; discriminate | exact Hd']).
      exists id. reflexivity. }
    destruct He as (id & ->). simpl in Hstep.
    destruct (fireTimeout id (world s)) as [w'|] eqn:E; [|discriminate].
    apply fireTimeout_inv in E. destruct E as (due & Hin & Hdue & _).
    exists id, due. split; [reflexivity|].
    destruct (phaseTimer (world s)) as [pid|].
    + destruct W1 as [[due' Ht] _]. rewrite Ht in Hin.
      destruct Hin as [Hin|[]]. injection Hin as -> ->. auto.
    + rewrite W1 in Hin. destruct Hin.
Qed.

Lemma queue_consistent_stable : Stable queue_consistent.
Proof.
  assert (Hext : forall w w',
             scheduled w' = scheduled w ->
             pendingOptions w' = pendingOptions w ->
             measureRequests w' = measureRequests w ->
             queue_consistent w -> queue_consistent w').
  { unfold queue_consistent. intros w w' -> -> ->. auto. }
  assert (Hh : forall w, queue_consistent w -> queue_consistent (hideCursor w)).
  { intros w. destruct (hideCursor_effect w)
      as (_ & _ & _ & _ & _ & _ & Hq & Hs & Hp).
    apply Hext; assumption. }
  constructor.
  - intros v o w H. destruct (guard_ok v) eqn:Hg.
    + rewrite (scheduleMeasurement_ok v o w Hg).
      destruct (scheduled w) eqn:Hs; unfold queue_consistent in *; simpl.
      * destruct H as (H1 & H2). rewrite Hs.
        split; [split; [discriminate|reflexivity]|]. auto.
      * split; [split; [discriminate|reflexivity]|]. intros _. apply Nat.lt_0_succ.
    + unfold scheduleMeasurement. rewrite (guard_ok_false v Hg).
      apply (Hext (hideCursor w)); try reflexivity. apply Hh, H.
  - exact Hh.
  - intros n w _. unfold queue_consistent. simpl.
    split; [split; [discriminate|intros H; contradiction H; reflexivity]|].
    discriminate.
  - intros d w H.
    assert (Hhide : queue_consistent (set_lastHead None (hideCursor w))).
    { apply (Hext (hideCursor w)); try reflexivity. apply Hh, H. }
    unfold applyMeasurement.
    destruct (visible d); [|exact Hhide].
    destruct (rect d) as [rc|]; [|exact Hhide].
    destruct (hostRect d) as [hr|]; [|exact Hhide].
    destruct (negb (forcePosition (options d))
              && negb (head_differs (lastHead w) (head d))); [exact H|].
    destruct (restartPhase (options d) || head_differs (lastHead w) (head d)).
    + revert H. apply Hext; unfold restartPhaseTimer; simpl;
        destruct (phaseTimer w); reflexivity.
    + revert H. apply Hext; reflexivity.
  - intros id w w' H Hf. apply fireTimeout_inv in Hf.
    destruct Hf as (due & _ & _ & ->). revert H. apply Hext; reflexivity.
  - intros dt w _. apply Hext; reflexivity.
  - intros v w _. rewrite destroy_fields. unfold queue_consistent. simpl.
    split; [split; [discriminate|intros H; contradiction H; reflexivity]|].
    discriminate.
Qed.

Lemma reachable_queue_consistent (s : System num) :
  reachable s -> queue_consistent (world s).
Proof.
  intros (v & p & es & Hrun).
  apply (run_world _ es (boot v p) s queue_consistent_stable Hrun).
  unfold boot. cbn [world]. rewrite constructor_fields.
  unfold queue_consistent. simpl.
  destruct (guard_ok v); simpl;
    (split; [split; [discriminate || auto | auto] |]);
    try discriminate; try (intros H; contradiction H; reflexivity);
    intros _; apply Nat.lt_0_succ.
Qed.

(** X7.  In every reachable state the scheduled flag is set exactly when
    intents are pending, and then a request is waiting in the editor's queue:
    intents that were merged are never left without a read to consume
    them. *)
Theorem pending_intents_are_served (s : System num) :
  reachable s ->
  (scheduled (world s) = true <-> pendingOptions (world s) <> None)
  /\ (pendingOptions (world s) <> None ->
      (0 < measureRequests (world s))%nat
      /\ exists s' d,
           step EvRead s = Some s'
           /\ inflight s' = (inflight s ++ [d])%list
           /\ Some (options d) = pendingOptions (world s)
           /\ pendingOptions (world s') = None
           /\ scheduled (world s') = false).
Proof.
  intros R. pose proof (reachable_queue_consistent s R) as Q.
  destruct Q as (Q1 & Q2). split; [exact Q1|].
  intros Hp. assert (Hs : scheduled (world s) = true) by (apply Q1, Hp).
  specialize (Q2 Hs). split; [exact Q2|].
  simpl. destruct (measureRequests (world s)) as [|n]; [inversion Q2|].
  destruct (readMeasurement_total (view s) (world s)) as (d & Hr & Ho & _).
  rewrite Hr. eexists; exists d. split; [reflexivity|]. simpl.
  split; [reflexivity|]. split; [|split; reflexivity].
  rewrite Ho. destruct (pendingOptions (world s)); [reflexivity|congruence].
Qed.

Lemma scheduleMeasurement_queue (v : EditorView num) (o : UpdateOptions)
    (w : World) :
  let w' := scheduleMeasurement v o w in
  if guard_ok v
  then pendingOptions w' = Some (merge_options (pending_or_default w) o)
       /\ scheduled w' = true
       /\ measureRequests w'
          = (if scheduled w then measureRequests w else S (measureRequests w))
  else pendingOptions w' = pendingOptions w
       /\ scheduled w' = scheduled w
       /\ measureRequests w' = measureRequests w.
Proof.
  intros w'. subst w'. destruct (guard_ok v) eqn:Hg.
  - rewrite (scheduleMeasurement_ok v o w Hg). unfold pending_or_default.
    destruct (scheduled w) eqn:Hs; simpl; rewrite ?Hs; auto.
  - unfold scheduleMeasurement. rewrite (guard_ok_false v Hg). simpl.
    destruct (hideCursor_effect w) as (_ & _ & _ & _ & _ & _ & Hq & Hs & Hp).
    auto.
Qed.

(** X8.  Triggers coalesce whatever they find.  After any sequence of
    triggers, the pending intents are the ones pending before, joined with
    the intents of those triggers that found the caret present; a trigger
    that found none contributes nothing and withdraws nothing.  If no trigger
    found the caret the queue is as before; otherwise one request is added,
    unless one was scheduled already. *)
Theorem triggers_coalesce_mixed (ts : list (Trigger num)) (w : World) :
  let ok := with_caret ts in
  let w' := fire_all ts w in
  pendingOptions w'
  = (if no_triggers ok then pendingOptions w
     else Some {| forcePosition :=
                    forcePosition (pending_or_default w)
                    || forcePosition (any_intents ok);
                  restartPhase :=
                    restartPhase (pending_or_default w)
                    || restartPhase (any_intents ok) |})
  /\ scheduled w' = scheduled w || negb (no_triggers ok)
  /\ measureRequests w'
     = (if scheduled w || no_triggers ok
        then measureRequests w
        else S (measureRequests w)).
Proof.
  revert w. induction ts as [|t ts IH]; intros w; cbv zeta.
  - simpl. rewrite orb_false_r, orb_true_r. auto.
  - rewrite fire_all_cons.
    pose proof (scheduleMeasurement_queue (fst t) (snd t) w) as Q.
    specialize (IH (scheduleMeasurement (fst t) (snd t) w)).
    cbv zeta in IH, Q. unfold with_caret in *. cbn [filter].
    destruct (guard_ok (fst t)).
    + destruct Q as (Qp & Qs & Qm). destruct IH as (Ip & Is & Im).
      rewrite Ip, Is, Im, Qs, Qm. simpl.
      unfold pending_or_default at 1 2. rewrite Qp.
      rewrite orb_true_r, orb_false_r.
      split; [|split; [reflexivity|]].
      * match goal with
        | |- context [filter ?f ts] => destruct (filter f ts)
        end; simpl; rewrite ?orb_false_r, ?orb_assoc; reflexivity.
      * destruct (scheduled w); reflexivity.
    + destruct Q as (Qp & Qs & Qm). destruct IH as (Ip & Is & Im).
      rewrite Ip, Is, Im, Qs, Qm. unfold pending_or_default. rewrite Qp.
      auto.
Qed.

(** The snapshot of a read that finds the caret and its rectangle. *)
Lemma readMeasurement_visible (v : EditorView num) (w : World) (rc : Rect num) :
  guard_ok v = true ->
  coordsAtPos v (selection_main_head v) (-1) = Normal (Some rc) ->
  readMeasurement v w
  = Normal (set_scheduled false (set_pendingOptions None w),
            {| visible := true;
               rect := Some rc;
               hostRect := Some (scrollDOM_getBoundingClientRect v);
               head := selection_main_head v;
               options := pending_or_default w |}).
Proof.
  intros Hg Hc. unfold readMeasurement.
  rewrite (guard_ok_true v Hg), Hc. reflexivity.
Qed.

(** What a visible write that is not skipped leaves. *)
Lemma applyMeasurement_painted
    (d : CursorMeasurement num) (rc : Rect num) (hr : DOMRect num) (w : World) :
  visible d = true -> rect d = Some rc -> hostRect d = Some hr ->
  forcePosition (options d) || head_differs (lastHead w) (head d) = true ->
  let w' := applyMeasurement d w in
  lastHead w' = Some (head d)
  /\ cursor_display w' = "block"
  /\ cursor_top w' = px (num_sub (rect_top rc) (dom_top hr))
  /\ cursor_left w' = px (num_sub (rect_left rc) (dom_left hr))
  /\ cursor_height w' = px (num_sub (rect_bottom rc) (rect_top rc))
  /\ pendingOptions w' = pendingOptions w
  /\ scheduled w' = scheduled w
  /\ (restartPhase (options d) || head_differs (lastHead w) (head d) = false ->
      cursor_classList w' = cursor_classList w
      /\ phaseTimer w' = phaseTimer w
      /\ timers w' = timers w)
  /\ (restartPhase (options d) || head_differs (lastHead w) (head d) = true ->
      dimmed w' = false
      /\ phaseTimer w' = Some (nextTimerId w)
      /\ In (nextTimerId w, now w + PHASE_DELAY) (timers w')).
Proof.
  intros Hv Hr Hh Hm w'. subst w'. unfold applyMeasurement.
  rewrite Hv, Hr, Hh.
  assert (G : negb (forcePosition (options d))
              && negb (head_differs (lastHead w) (head d)) = false).
  { rewrite <- negb_orb, Hm. reflexivity. }
  rewrite G.
  destruct (restartPhase (options d) || head_differs (lastHead w) (head d)).
  - world_cases w. unfold restartPhaseTimer, dimmed. simpl.
    destruct pt; simpl; rewrite classList_contains_remove;
      repeat (split; [reflexivity|]);
      (split; [intros; discriminate|]);
      intros _; (split; [reflexivity|]); (split; [reflexivity|]);
      apply in_or_app; right; left; reflexivity.
  - simpl. repeat (split; [reflexivity|]).
    split; [intros _; repeat split; reflexivity | intros; discriminate].
Qed.

(** X9.  A trigger that forces the position, followed by its read and
    write, shows the overlay whatever the world was before, as long as the
    editor has focus, the selection is collapsed and the position maps to a
    rectangle: the read consumes a forced intent, and the write leaves the
    overlay visible at the container-local place of the rectangle, remembers
    the head, and leaves nothing scheduled or pending. *)
Theorem forced_cycle_shows
    (v : EditorView num) (o : UpdateOptions) (w : World) (rc : Rect num) :
  guard_ok v = true ->
  truthy (opt_forcePosition o) = true ->
  coordsAtPos v (selection_main_head v) (-1) = Normal (Some rc) ->
  exists w2 d,
    readMeasurement v (scheduleMeasurement v o w) = Normal (w2, d)
    /\ forcePosition (options d) = true
    /\ let w3 := applyMeasurement d w2 in
       let hr := scrollDOM_getBoundingClientRect v in
       overlay_visible w3 = true
       /\ cursor_top w3 = px (num_sub (rect_top rc) (dom_top hr))
       /\ cursor_left w3 = px (num_sub (rect_left rc) (dom_left hr))
       /\ cursor_height w3 = px (num_sub (rect_bottom rc) (rect_top rc))
       /\ lastHead w3 = Some (selection_main_head v)
       /\ scheduled w3 = false
       /\ pendingOptions w3 = None.
Proof.
  intros Hg Hf Hc.
  rewrite (readMeasurement_visible v _ rc Hg Hc).
  eexists; eexists. split; [reflexivity|].
  pose proof (scheduleMeasurement_queue v o w) as Q. cbv zeta in Q.
  rewrite Hg in Q. destruct Q as (Qp & _).
  assert (F : forcePosition
                (pending_or_default (scheduleMeasurement v o w)) = true).
  { unfold pending_or_default. rewrite Qp. simpl. rewrite Hf.
    apply orb_true_r. }
  split; [exact F|]. cbv zeta.
  match goal with
  | |- context [applyMeasurement ?d ?w2] =>
      destruct (applyMeasurement_painted d rc
                  (scrollDOM_getBoundingClientRect v) w2
                  eq_refl eq_refl eq_refl)
        as (H1 & H2 & H3 & H4 & H5 & H6 & H7 & _)
  end.
  { simpl. rewrite F. reflexivity. }
  unfold overlay_visible. rewrite H2, H3, H4, H5, H6, H7.
  repeat split; auto.
Qed.

(** X10.  A scroll or resize cycle with the head where it was moves the
    overlay and leaves the blink phase alone: when no restart is pending and
    the remembered head is the selection's, the trigger of [onScroll], its
    read and its write set display, top, left and height and leave the class
    list, the timeout field and the window's timeouts as they were. *)
Theorem scroll_cycle_keeps_phase
    (v : EditorView num) (w : World) (rc : Rect num) :
  guard_ok v = true ->
  coordsAtPos v (selection_main_head v) (-1) = Normal (Some rc) ->
  restartPhase (pending_or_default w) = false ->
  lastHead w = Some (selection_main_head v) ->
  exists w2 d,
    readMeasurement v (scheduleMeasurement v position_options w)
    = Normal (w2, d)
    /\ let w3 := applyMeasurement d w2 in
       let hr := scrollDOM_getBoundingClientRect v in
       cursor_display w3 = "block"
       /\ cursor_top w3 = px (num_sub (rect_top rc) (dom_top hr))
       /\ cursor_left w3 = px (num_sub (rect_left rc) (dom_left hr))
       /\ cursor_height w3 = px (num_sub (rect_bottom rc) (rect_top rc))
       /\ cursor_classList w3 = cursor_classList w
       /\ phaseTimer w3 = phaseTimer w
       /\ timers w3 = timers w.
Proof.
  intros Hg Hc Hr Hl.
  rewrite (readMeasurement_visible v _ rc Hg Hc).
  eexists; eexists. split; [reflexivity|].
  pose proof (scheduleMeasurement_queue v position_options w) as Q.
  cbv zeta in Q. rewrite Hg in Q. destruct Q as (Qp & _).
  assert (L : lastHead (scheduleMeasurement v position_options w)
              = Some (selection_main_head v)).
  { rewrite (scheduleMeasurement_lastHead v _ w Hg). exact Hl. }
  assert (P : pending_or_default (scheduleMeasurement v position_options w)
              = {| forcePosition := true; restartPhase := false |}).
  { unfold pending_or_default. rewrite Qp. unfold merge_options. simpl.
    rewrite Hr, orb_true_r. reflexivity. }
  cbv zeta.
  match goal with
  | |- context [applyMeasurement ?d ?w2] =>
      destruct (applyMeasurement_painted d rc
                  (scrollDOM_getBoundingClientRect v) w2
                  eq_refl eq_refl eq_refl)
        as (H1 & H2 & H3 & H4 & H5 & _ & _ & H8 & _)
  end.
  { simpl. rewrite P. reflexivity. }
  destruct H8 as (K1 & K2 & K3).
  { simpl. rewrite P, L. simpl. rewrite Z.eqb_refl. reflexivity. }
  rewrite H2, H3, H4, H5, K1, K2, K3.
  repeat split; auto;
    rewrite (scheduleMeasurement_ok v _ w Hg); destruct (scheduled w); reflexivity.
Qed.

(** X11.  A selection change on its own, with the head where it was, does
    nothing to the overlay.  When nothing is scheduled or pending and the
    remembered head is the selection's, the frame callback of
    [onSelectionChange], its read and its write leave the world as it was but
    for the request that went through the queue: the snapshot carries the
    restart-phase intent, and the write is skipped all the same, so a hidden
    overlay stays hidden and a dimmed one dimmed. *)
Theorem selectionchange_cycle_is_idle
    (v : EditorView num) (w : World) (rc : Rect num) :
  guard_ok v = true ->
  coordsAtPos v (selection_main_head v) (-1) = Normal (Some rc) ->
  scheduled w = false ->
  pendingOptions w = None ->
  lastHead w = Some (selection_main_head v) ->
  exists w2 d,
    readMeasurement v (scheduleMeasurement v selectionchange_options w)
    = Normal (w2, d)
    /\ options d = {| forcePosition := false; restartPhase := true |}
    /\ applyMeasurement d w2 = w2
    /\ w2 = requestMeasure w.
Proof.
  intros Hg Hc Hs Hp Hl.
  rewrite (readMeasurement_visible v _ rc Hg Hc).
  eexists; eexists. split; [reflexivity|].
  rewrite (scheduleMeasurement_ok v _ w Hg), Hs, Hp.
  split; [reflexivity|]. split.
  - unfold applyMeasurement. simpl. rewrite Hl. simpl.
    rewrite Z.eqb_refl. reflexivity.
  - world_cases w. simpl in Hs, Hp. subst sc pe. reflexivity.
Qed.

(** X12.  The read checks focus and selection again.  When the editor has
    lost focus, or the selection is no longer collapsed, by the time of the
    read, the position is not mapped at all (the result is the same whatever
    [coordsAtPos] would answer or throw): the snapshot is not visible,
    carries no rectangle, the selection's head and the pending intents, and
    its write hides the overlay and clears the remembered head. *)
Theorem read_without_caret
    (v : EditorView num) (w : World) :
  hasFocus v = false \/ isCollapsedSelection v = false ->
  (forall f, readMeasurement (with_coordsAtPos v f) w = readMeasurement v w)
  /\ exists w' d,
       readMeasurement v w = Normal (w', d)
       /\ visible d = false
       /\ rect d = None
       /\ hostRect d = None
       /\ head d = selection_main_head v
       /\ options d = pending_or_default w
       /\ scheduled w' = false
       /\ pendingOptions w' = None
       /\ forall w0,
            cursor_display (applyMeasurement d w0) = "none"
            /\ lastHead (applyMeasurement d w0) = None
            /\ phaseTimer (applyMeasurement d w0) = None.
Proof.
  intros H.
  assert (G : negb (hasFocus v) || negb (isCollapsedSelection v) = true).
  { destruct H as [-> | ->]; [reflexivity | apply orb_true_r]. }
  split.
  - intros f. unfold readMeasurement, with_coordsAtPos, isCollapsedSelection in *.
    simpl. rewrite G. reflexivity.
  - unfold readMeasurement. rewrite G.
    eexists; eexists. split; [reflexivity|]. simpl.
    repeat (split; [reflexivity|]).
    intros w0. unfold applyMeasurement. simpl.
    destruct (hideCursor_effect w0) as (Hd & _ & Ht & _). auto.
Qed.

(** X15.  Every update with a flag set forces the position: with focus, a
    collapsed selection and a position that maps, the read after it consumes
    a forced intent and the write shows the overlay and remembers the head;
    and when the document or the selection changed, the write also removes
    the dimmed class and starts a blink timeout. *)
Theorem update_cycle_repaints
    (v : EditorView num) (u : ViewUpdate) (w : World) (rc : Rect num) :
  docChanged u || selectionSet u || viewportChanged u
  || geometryChanged u || focusChanged u = true ->
  guard_ok v = true ->
  coordsAtPos v (selection_main_head v) (-1) = Normal (Some rc) ->
  exists w2 d,
    readMeasurement v (update v u w) = Normal (w2, d)
    /\ forcePosition (options d) = true
    /\ let w3 := applyMeasurement d w2 in
       overlay_visible w3 = true
       /\ lastHead w3 = Some (selection_main_head v)
       /\ (docChanged u || selectionSet u = true ->
           restartPhase (options d) = true
           /\ dimmed w3 = false
           /\ exists id due, phaseTimer w3 = Some id /\ In (id, due) (timers w3)).
Proof.
  intros Hany Hg Hc.
  rewrite (readMeasurement_visible v _ rc Hg Hc).
  eexists; eexists. split; [reflexivity|].
  unfold update. rewrite Hany.
  match goal with
  | |- context [scheduleMeasurement v ?o w] =>
      pose proof (scheduleMeasurement_queue v o w) as Q; set (o' := o) in *
  end.
  cbv zeta in Q. rewrite Hg in Q. destruct Q as (Qp & _).
  assert (F : forcePosition (pending_or_default (scheduleMeasurement v o' w))
              = true).
  { unfold pending_or_default. rewrite Qp. unfold o'. simpl.
    replace (viewportChanged u || geometryChanged u || focusChanged u
             || docChanged u || selectionSet u) with true;
      [apply orb_true_r|].
    destruct (docChanged u), (selectionSet u), (viewportChanged u),
      (geometryChanged u), (focusChanged u); auto; discriminate. }
  split; [exact F|]. cbv zeta.
  match goal with
  | |- context [applyMeasurement ?d ?w2] =>
      destruct (applyMeasurement_painted d rc
                  (scrollDOM_getBoundingClientRect v) w2
                  eq_refl eq_refl eq_refl)
        as (H1 & H2 & _ & _ & _ & _ & _ & _ & H9)
  end.
  { simpl. rewrite F. reflexivity. }
  unfold overlay_visible. rewrite H2. split; [reflexivity|].
  split; [exact H1|].
  intros Hds.
  assert (R : restartPhase (pending_or_default (scheduleMeasurement v o' w))
              = true).
  { unfold pending_or_default. rewrite Qp. unfold o'. simpl. rewrite Hds.
    apply orb_true_r. }
  split; [exact R|].
  destruct H9 as (K1 & K2 & K3).
  { simpl. rewrite R. reflexivity. }
  split; [exact K1|]. eexists; eexists. split; [exact K2 | exact K3].
Qed.

(** X16.  End to end: in a reachable state with no snapshot awaiting its
    write, where the editor has focus, the selection is collapsed and the
    position maps to a rectangle, an update with a flag set followed by the
    editor's read and write can always run, and it leaves the overlay
    visible, the head remembered, nothing scheduled, pending or awaiting, and
    the last mapping successful. *)
Theorem update_then_flush_shows
    (s : System num) (u : ViewUpdate) (rc : Rect num) :
  reachable s ->
  inflight s = [] ->
  docChanged u || selectionSet u || viewportChanged u
  || geometryChanged u || focusChanged u = true ->
  guard_ok (view s) = true ->
  coordsAtPos (view s) (selection_main_head (view s)) (-1) = Normal (Some rc) ->
  exists s',
    run [EvUpdate u; EvRead; EvWrite] s = Some s'
    /\ overlay_visible (world s') = true
    /\ lastHead (world s') = Some (selection_main_head (view s))
    /\ inflight s' = []
    /\ lastMapping s' = Some true
    /\ scheduled (world s') = false
    /\ pendingOptions (world s') = None.
Proof.
  intros R Hi Hany Hg Hc.
  pose proof (reachable_queue_consistent s R) as Q.
  assert (Q1 : queue_consistent (update (view s) u (world s))).
  { apply (update_schedule queue_consistent); [|exact Q].
    intros o. destruct queue_consistent_stable as [Hs _ _ _ _ _ _].
    apply Hs, Q. }
  assert (E : update (view s) u (world s)
              = scheduleMeasurement (view s)
                  {| opt_forcePosition :=
                       Some (viewportChanged u || geometryChanged u
                             || focusChanged u || docChanged u
                             || selectionSet u);
                     opt_restartPhase := Some (docChanged u || selectionSet u) |}
                  (world s)).
  { unfold update. rewrite Hany. reflexivity. }
  set (w1 := update (view s) u (world s)) in *.
  pose proof (scheduleMeasurement_queue (view s)
                {| opt_forcePosition :=
                     Some (viewportChanged u || geometryChanged u
                           || focusChanged u || docChanged u
                           || selectionSet u);
                   opt_restartPhase := Some (docChanged u || selectionSet u) |}
                (world s)) as S1.
  cbv zeta in S1. rewrite Hg, <- E in S1. destruct S1 as (Sp & Ss & _).
  assert (F : forcePosition (pending_or_default w1) = true).
  { unfold pending_or_default. rewrite Sp. simpl.
    replace (viewportChanged u || geometryChanged u || focusChanged u
             || docChanged u || selectionSet u) with true;
      [apply orb_true_r|].
    destruct (docChanged u), (selectionSet u), (viewportChanged u),
      (geometryChanged u), (focusChanged u); auto; discriminate. }
  destruct Q1 as (_ & Q2). specialize (Q2 Ss).
  destruct (measureRequests w1) as [|n] eqn:Em; [inversion Q2|].
  cbn [run]. cbn [step]. fold w1. unfold with_world. cbn [world view inflight].
  rewrite Em, (readMeasurement_visible (view s) w1 rc Hg Hc).
  cbn [world view inflight lastMapping]. rewrite Hi. cbn [app].
  match goal with
  | |- context [applyMeasurement ?d ?w2] =>
      destruct (applyMeasurement_painted d rc
                  (scrollDOM_getBoundingClientRect (view s)) w2
                  eq_refl eq_refl eq_refl)
        as (H1 & H2 & _ & _ & _ & H6 & H7 & _)
  end.
  { simpl. rewrite F. reflexivity. }
  eexists. split; [reflexivity|]. cbn [world inflight lastMapping].
  unfold overlay_visible. rewrite H1, H2, H6, H7.
  repeat (split; [reflexivity|]).
  split; [|split; reflexivity].
  unfold mapping_outcome. rewrite (guard_ok_true _ Hg), Hc. reflexivity.
Qed.

End Properties.

(** ** The properties at work on the concrete editor *)

Lemma well_formed_fresh_world : well_formed fresh_world.
Proof.
  destruct (well_formed_stable Z) as [_ _ Hread _ _ _ _].
  apply Hread, well_formed_constructor.
Qed.

Lemma triggers_coalesce_witness :
  let ts := [(caret_view, position_options);
             (caret_view, selectionchange_options);
             (caret_view, no_options)] in
  ts <> []
  /\ forallb (fun t => guard_ok (fst t)) ts = true
  /\ scheduled fresh_world = false
  /\ pendingOptions fresh_world = None
  /\ measureRequests (fire_all ts fresh_world) = 1%nat
  /\ exists w'' d,
       readMeasurement caret_view (fire_all ts fresh_world) = Normal (w'', d)
       /\ options d = {| forcePosition := true; restartPhase := true |}.
Proof.
  intros ts.
  assert (H1 : ts <> []) by discriminate.
  assert (H2 : forallb (fun t => guard_ok (fst t)) ts = true) by reflexivity.
  assert (H3 : scheduled fresh_world = false) by reflexivity.
  assert (H4 : pendingOptions fresh_world = None) by reflexivity.
  destruct (triggers_coalesce Z ts fresh_world caret_view H1 H2 H3 H4)
    as (Hq & w'' & d & Hr & Ho & _).
  split; [exact H1|]. split; [exact H2|]. split; [exact H3|].
  split; [exact H4|]. split; [exact Hq|].
  exists w'', d. split; [exact Hr|]. rewrite Ho. reflexivity.
Defined.

Lemma reachable_hidden_system : reachable hidden_system.
Proof.
  exists caret_view, page0,
    [EvRead; EvWrite; EvHost blurred_view; EvBlur; EvHost caret_view].
  vm_compute. reflexivity.
Qed.

Lemma overlay_visibility_witness :
  reachable hidden_system
  /\ cursor_display (world hidden_system) = "none"
  /\ phaseTimer (world hidden_system) = None
  /\ timers (world hidden_system) = []
  /\ dimmed (world hidden_system) = false
  /\ exists s',
       run [EvFocus; EvRead; EvWrite] hidden_system = Some s'
       /\ hasFocus (view s') = true
       /\ isCollapsedSelection (view s') = true
       /\ lastMapping s' = Some true
       /\ overlay_visible (world s') = true.
Proof.
  pose proof (overlay_visibility Z hidden_system reachable_hidden_system)
    as (H1 & _ & _ & _ & _ & _ & _ & H8).
  split; [exact reachable_hidden_system|].
  assert (Hh : overlay_visible (world hidden_system) = false)
    by (vm_compute; reflexivity).
  destruct (H1 Hh) as (A1 & A2 & A3 & A4).
  split; [exact A1|]. split; [exact A2|]. split; [exact A3|].
  split; [exact A4|].
  destruct (run [EvFocus; EvRead; EvWrite] hidden_system) as [s'|] eqn:E;
    [|vm_compute in E; discriminate E].
  assert (F : forced_trigger (@EvFocus Z) = true) by reflexivity.
  assert (I : inflight hidden_system = []) by reflexivity.
  pose proof (H8 EvFocus s' F I E) as Hiff.
  vm_compute in E. injection E as <-.
  exists ltac:(match type of Hiff with
               | overlay_visible (world ?x) = true <-> _ => exact x
               end).
  split; [reflexivity|].
  split; [vm_compute; reflexivity|].
  split; [vm_compute; reflexivity|].
  split; [vm_compute; reflexivity|].
  apply Hiff.
  split; [vm_compute; reflexivity|].
  split; vm_compute; reflexivity.
Defined.


Lemma failed_mapping_hides_witness :
  (coordsAtPos unmapped_view (selection_main_head unmapped_view) (-1) = Throw
   \/ coordsAtPos unmapped_view (selection_main_head unmapped_view) (-1)
      = Normal None)
  /\ exists w' d,
       readMeasurement unmapped_view fresh_world = Normal (w', d)
       /\ visible d = false
       /\ cursor_display (applyMeasurement d shown_world) = "none"
       /\ lastHead (applyMeasurement d shown_world) = None.
Proof.
  assert (H : coordsAtPos unmapped_view (selection_main_head unmapped_view) (-1)
              = Throw
              \/ coordsAtPos unmapped_view (selection_main_head unmapped_view) (-1)
                 = Normal None)
    by (left; reflexivity).
  split; [exact H|].
  destruct (failed_mapping_hides Z unmapped_view fresh_world H)
    as (w' & d & Hr & Hv & Hw).
  exists w', d. split; [exact Hr|]. split; [exact Hv|].
  destruct (Hw shown_world) as (H1 & _ & _ & H4).
  split; [exact H1 | exact H4].
Defined.

Lemma blink_phase_restart_witness :
  well_formed fresh_world
  /\ shows (caret_snapshot true true) = true
  /\ dimmed shown_world = false
  /\ exists id,
       phaseTimer shown_world = Some id
       /\ timers shown_world = [(id, 1200)].
Proof.
  split; [exact well_formed_fresh_world|]. split; [reflexivity|].
  change shown_world
    with (applyMeasurement (caret_snapshot true true) fresh_world).
  destruct (blink_phase_restart Z (caret_snapshot true true) fresh_world
              well_formed_fresh_world eq_refl) as (_ & H & _).
  destruct (H eq_refl eq_refl) as (Hd & (id & Hp & Ht & _) & _).
  split; [exact Hd|]. exists id. split; [exact Hp | exact Ht].
Defined.

Lemma unchanged_write_is_skipped_witness :
  shows (caret_snapshot false true) = true
  /\ forcePosition (options (caret_snapshot false true)) = false
  /\ lastHead shown_world = Some (head (caret_snapshot false true))
  /\ applyMeasurement (caret_snapshot false true) shown_world = shown_world.
Proof.
  assert (H1 : shows (caret_snapshot false true) = true) by reflexivity.
  assert (H2 : forcePosition (options (caret_snapshot false true)) = false)
    by reflexivity.
  assert (H3 : lastHead shown_world = Some (head (caret_snapshot false true)))
    by (vm_compute; reflexivity).
  split; [exact H1|]. split; [exact H2|]. split; [exact H3|].
  exact (unchanged_write_is_skipped Z (caret_snapshot false true) shown_world
           H1 H2 H3).
Defined.

Lemma visible_write_styles_witness :
  visible (caret_snapshot true false) = true
  /\ rect (caret_snapshot true false) = Some caret_rect
  /\ hostRect (caret_snapshot true false) = Some scroller_rect
  /\ (forcePosition (options (caret_snapshot true false)) = true
      \/ lastHead fresh_world <> Some (head (caret_snapshot true false)))
  /\ let w' := applyMeasurement (caret_snapshot true false) fresh_world in
     lastHead w' = Some 5
     /\ cursor_display w' = "block"
     /\ cursor_top w' = "40px"
     /\ cursor_left w' = "12px"
     /\ cursor_height w' = "18px".
Proof.
  assert (H : forcePosition (options (caret_snapshot true false)) = true
              \/ lastHead fresh_world <> Some (head (caret_snapshot true false)))
    by (left; reflexivity).
  split; [reflexivity|]. split; [reflexivity|]. split; [reflexivity|].
  split; [exact H|].
  destruct (visible_write_styles Z (caret_snapshot true false) caret_rect
              scroller_rect fresh_world eq_refl eq_refl eq_refl H)
    as (H1 & H2 & H3 & H4 & H5).
  intros w'. subst w'.
  split; [exact H1|]. split; [exact H2|]. split; [exact H3|].
  split; [exact H4 | exact H5].
Defined.

Lemma update_requests_measurement_witness :
  update caret_view empty_update fresh_world = fresh_world
  /\ pendingOptions (update caret_view selection_update fresh_world)
     = Some {| forcePosition := true; restartPhase := true |}
  /\ measureRequests (update caret_view selection_update fresh_world) = 1%nat.
Proof.
  destruct (update_requests_measurement Z caret_view empty_update fresh_world)
    as (H0 & _).
  destruct (update_requests_measurement Z caret_view selection_update
              fresh_world) as (_ & _ & H).
  destruct (H eq_refl eq_refl) as (Hp & _ & Hq).
  split; [exact (H0 eq_refl)|]. split; [exact Hp | exact Hq].
Defined.

Lemma lastHead_cleared_witness :
  let s' := with_world shown_then_blurred
              (scheduleMeasurement blurred_view position_options shown_world) in
  step EvScroll shown_then_blurred = Some s'
  /\ lastHead (world shown_then_blurred) <> None
  /\ lastHead (world s') = None
  /\ trigger_event (@EvScroll Z) = true
  /\ guard_ok (view shown_then_blurred) = false.
Proof.
  intros s'.
  assert (E : step EvScroll shown_then_blurred = Some s')
    by (vm_compute; reflexivity).
  assert (H1 : lastHead (world shown_then_blurred) <> None)
    by (vm_compute; discriminate).
  assert (H2 : lastHead (world s') = None) by (vm_compute; reflexivity).
  split; [exact E|]. split; [exact H1|]. split; [exact H2|].
  destruct (lastHead_cleared_only_on_guard_paths Z) as (_ & _ & H).
  destruct (H EvScroll shown_then_blurred s' E H1 H2) as [Ht | [He _]].
  - exact Ht.
  - discriminate He.
Defined.


(** C2 as the specification states it fails, in both directions.  After the
    blur handler has hidden the overlay, a selection change that leaves the
    head where it was is measured and its write is skipped: the editor has
    focus, the selection is collapsed, the last mapping gave a rectangle,
    nothing is left to measure, and the overlay is hidden.  It is also hidden,
    under the same three conditions, in the state between the first read and
    its write.  And when the update hook hides the overlay between a read and
    its write, the write paints it again: the overlay is visible although the
    editor has no focus, with nothing left to measure. *)
Lemma overlay_hidden_with_caret_mapped :
  (exists s,
      run blur_then_selectionchange (boot caret_view page0) = Some s
      /\ hasFocus (view s) = true
      /\ isCollapsedSelection (view s) = true
      /\ lastMapping s = Some true
      /\ inflight s = []
      /\ measureRequests (world s) = 0%nat
      /\ overlay_visible (world s) = false)
  /\ (exists s,
        run [EvRead] (boot caret_view page0) = Some s
        /\ hasFocus (view s) = true
        /\ isCollapsedSelection (view s) = true
        /\ lastMapping s = Some true
        /\ overlay_visible (world s) = false)
  /\ (exists s,
        run stale_write (boot caret_view page0) = Some s
        /\ hasFocus (view s) = false
        /\ inflight s = []
        /\ measureRequests (world s) = 0%nat
        /\ overlay_visible (world s) = true).
Proof.
  split; [|split]; eexists; (split; [vm_compute; reflexivity|]);
    repeat split; vm_compute; reflexivity.
Qed.

(** C5 as the specification states it fails.  The overlay has dimmed; a
    selection change with the head where it was leaves a visible snapshot
    whose restart-phase intent is set; its write does not restart the blink
    timeout: the dimmed class stays and no timeout is pending. *)
Lemma restart_intent_dropped :
  exists s d,
    run dim_then_selectionchange (boot caret_view page0) = Some s
    /\ inflight s = [d]
    /\ shows d = true
    /\ restartPhase (options d) = true
    /\ head_differs (lastHead (world s)) (head d) = false
    /\ dimmed (world s) = true
    /\ dimmed (applyMeasurement d (world s)) = true
    /\ phaseTimer (applyMeasurement d (world s)) = None
    /\ timers (applyMeasurement d (world s)) = [].
Proof.
  eexists; eexists. split; [vm_compute; reflexivity|].
  split; [reflexivity|]. repeat split; vm_compute; reflexivity.
Qed.

(** ** The scenarios of the specification, run on the concrete editor *)

(** Focus with a collapsed selection: one cycle shows the overlay at the
    caret's rectangle, not dimmed, with the blink timeout pending. *)
Example overlay_shown_after_first_cycle :
  exists s,
    run [EvRead; EvWrite] (boot caret_view page0) = Some s
    /\ cursor_display (world s) = "block"
    /\ cursor_top (world s) = "40px"
    /\ cursor_left (world s) = "12px"
    /\ cursor_height (world s) = "18px"
    /\ dimmed (world s) = false
    /\ timers (world s) = [(1, 1200)]
    /\ measureRequests (world s) = 0%nat.
Proof.
  eexists. split; [vm_compute; reflexivity|].
  repeat split; vm_compute; reflexivity.
Qed.

(** Scrolling with the head unchanged: the overlay is repositioned, the
    dimmed class and the absence of a timeout stay. *)
Example scroll_keeps_the_phase :
  exists s,
    run [EvRead; EvWrite; EvTick 200; EvTimeout 1; EvScroll; EvRead; EvWrite]
      (boot caret_view page0) = Some s
    /\ cursor_display (world s) = "block"
    /\ dimmed (world s) = true
    /\ phaseTimer (world s) = None
    /\ timers (world s) = [].
Proof.
  eexists. split; [vm_compute; reflexivity|].
  repeat split; vm_compute; reflexivity.
Qed.

(** The timeout cannot fire before it is due. *)
Example timeout_not_before_delay :
  run [EvRead; EvWrite; EvTick 199; EvTimeout 1] (boot caret_view page0) = None.
Proof. vm_compute. reflexivity. Qed.

(** Losing focus: the update hook hides the overlay at once and clears the
    remembered head; nothing is requested. *)
Example focus_loss_hides :
  exists s,
    run [EvRead; EvWrite; EvHost blurred_view;
         EvUpdate {| docChanged := false; selectionSet := false;
                     viewportChanged := false; geometryChanged := false;
                     focusChanged := true |}]
      (boot caret_view page0) = Some s
    /\ cursor_display (world s) = "none"
    /\ lastHead (world s) = None
    /\ timers (world s) = []
    /\ measureRequests (world s) = 0%nat.
Proof.
  eexists. split; [vm_compute; reflexivity|].
  repeat split; vm_compute; reflexivity.
Qed.

(** ** The further properties at work on the concrete editor *)

Lemma reachable_shown_system : reachable shown_system.
Proof.
  exists caret_view, page0, [EvRead; EvWrite]. vm_compute. reflexivity.
Qed.

Lemma reachable_due_system : reachable due_system.
Proof.
  exists caret_view, page0, [EvRead; EvWrite; EvTick 200].
  vm_compute. reflexivity.
Qed.

Lemma missing_ResizeObserver_degrades_witness :
  page_ResizeObserver page_plain = false
  /\ resizeObserver (constructor caret_view page_plain) = None
  /\ step EvResizeObserver (boot caret_view page_plain) = None.
Proof.
  assert (H : page_ResizeObserver page_plain = false) by reflexivity.
  destruct (missing_ResizeObserver_degrades Z caret_view page_plain H)
    as (H1 & _ & H3).
  split; [exact H|]. split; [exact H1|].
  exact (H3 [] (boot caret_view page_plain) eq_refl).
Defined.


Lemma marker_class_only_witness :
  classList_contains VIRTUAL_CURSOR_ENABLED_CLASS (page_dom_classList page0)
  = false
  /\ classList_contains "cm-editor"
       (dom_classList (destroy blurred_view shown_world)) = true
  /\ dom_classList (destroy blurred_view (constructor caret_view page0))
     = ["cm-editor"].
Proof.
  assert (Ha : classList_contains VIRTUAL_CURSOR_ENABLED_CLASS
                 (page_dom_classList page0) = false)
    by (vm_compute; reflexivity).
  split; [exact Ha|].
  destruct (marker_class_only Z caret_view blurred_view page0 shown_world)
    as (_ & (_ & H2) & _ & H4).
  split.
  - rewrite (H2 "cm-editor"); [vm_compute; reflexivity|].
    intros H. discriminate H.
  - exact (H4 Ha).
Defined.

Lemma one_blink_timeout_witness :
  reachable shown_system
  /\ ((phaseTimer (world shown_system) = None
       /\ timers (world shown_system) = [])
      \/ (exists id due,
            phaseTimer (world shown_system) = Some id
            /\ timers (world shown_system) = [(id, due)]
            /\ due <= now (world shown_system) + PHASE_DELAY
            /\ id < nextTimerId (world shown_system)
            /\ overlay_visible (world shown_system) = true
            /\ dimmed (world shown_system) = false)).
Proof.
  split; [exact reachable_shown_system|].
  exact (one_blink_timeout Z shown_system reachable_shown_system).
Defined.

Lemma dimmed_only_by_timeout_witness :
  let s' := with_world due_system
              (phaseTimerCallback (clearTimeout 1 (world due_system))) in
  reachable due_system
  /\ step (EvTimeout 1) due_system = Some s'
  /\ dimmed (world due_system) = false
  /\ dimmed (world s') = true
  /\ exists id due,
       @EvTimeout Z 1 = EvTimeout id
       /\ phaseTimer (world due_system) = Some id
       /\ timers (world due_system) = [(id, due)]
       /\ due <= now (world due_system).
Proof.
  intros s'.
  assert (E : step (EvTimeout 1) due_system = Some s')
    by (vm_compute; reflexivity).
  assert (H1 : dimmed (world due_system) = false) by (vm_compute; reflexivity).
  assert (H2 : dimmed (world s') = true) by (vm_compute; reflexivity).
  split; [exact reachable_due_system|]. split; [exact E|].
  split; [exact H1|]. split; [exact H2|].
  destruct (dimmed_only_by_timeout Z due_system reachable_due_system)
    as (_ & H).
  exact (H (EvTimeout 1) s' E H1 H2).
Defined.

Lemma pending_intents_are_served_witness :
  reachable (boot caret_view page0)
  /\ pendingOptions (world (boot caret_view page0)) <> None
  /\ (0 < measureRequests (world (boot caret_view page0)))%nat.
Proof.
  assert (R : reachable (boot caret_view page0)).
  { exists caret_view, page0, []. reflexivity. }
  assert (Hp : pendingOptions (world (boot caret_view page0)) <> None)
    by (vm_compute; discriminate).
  split; [exact R|]. split; [exact Hp|].
  destruct (pending_intents_are_served Z (boot caret_view page0) R) as (_ & H).
  exact (proj1 (H Hp)).
Defined.

Lemma forced_cycle_shows_witness :
  guard_ok caret_view = true
  /\ truthy (opt_forcePosition focus_options) = true
  /\ coordsAtPos caret_view (selection_main_head caret_view) (-1)
     = Normal (Some caret_rect)
  /\ exists w2 d,
       readMeasurement caret_view
         (scheduleMeasurement caret_view focus_options
            (hideCursor shown_world))
       = Normal (w2, d)
       /\ forcePosition (options d) = true
       /\ overlay_visible (applyMeasurement d w2) = true.
Proof.
  assert (H1 : guard_ok caret_view = true) by reflexivity.
  assert (H2 : truthy (opt_forcePosition focus_options) = true) by reflexivity.
  assert (H3 : coordsAtPos caret_view (selection_main_head caret_view) (-1)
               = Normal (Some caret_rect)) by reflexivity.
  split; [exact H1|]. split; [exact H2|]. split; [exact H3|].
  destruct (forced_cycle_shows Z caret_view focus_options
              (hideCursor shown_world) caret_rect H1 H2 H3)
    as (w2 & d & Hr & Hf & Hv & _).
  exists w2, d. split; [exact Hr|]. split; [exact Hf | exact Hv].
Defined.

Lemma scroll_cycle_keeps_phase_witness :
  guard_ok caret_view = true
  /\ coordsAtPos caret_view (selection_main_head caret_view) (-1)
     = Normal (Some caret_rect)
  /\ restartPhase (pending_or_default shown_world) = false
  /\ lastHead shown_world = Some (selection_main_head caret_view)
  /\ exists w2 d,
       readMeasurement caret_view
         (scheduleMeasurement caret_view position_options shown_world)
       = Normal (w2, d)
       /\ cursor_display (applyMeasurement d w2) = "block"
       /\ timers (applyMeasurement d w2) = timers shown_world.
Proof.
  assert (H1 : guard_ok caret_view = true) by reflexivity.
  assert (H2 : coordsAtPos caret_view (selection_main_head caret_view) (-1)
               = Normal (Some caret_rect)) by reflexivity.
  assert (H3 : restartPhase (pending_or_default shown_world) = false)
    by (vm_compute; reflexivity).
  assert (H4 : lastHead shown_world = Some (selection_main_head caret_view))
    by (vm_compute; reflexivity).
  split; [exact H1|]. split; [exact H2|]. split; [exact H3|].
  split; [exact H4|].
  destruct (scroll_cycle_keeps_phase Z caret_view shown_world caret_rect
              H1 H2 H3 H4)
    as (w2 & d & Hr & Hd & _ & _ & _ & _ & _ & Ht).
  exists w2, d. split; [exact Hr|]. split; [exact Hd | exact Ht].
Defined.

Lemma selectionchange_cycle_is_idle_witness :
  guard_ok caret_view = true
  /\ coordsAtPos caret_view (selection_main_head caret_view) (-1)
     = Normal (Some caret_rect)
  /\ scheduled shown_world = false
  /\ pendingOptions shown_world = None
  /\ lastHead shown_world = Some (selection_main_head caret_view)
  /\ exists w2 d,
       readMeasurement caret_view
         (scheduleMeasurement caret_view selectionchange_options shown_world)
       = Normal (w2, d)
       /\ applyMeasurement d w2 = w2
       /\ w2 = requestMeasure shown_world.
Proof.
  assert (H1 : guard_ok caret_view = true) by reflexivity.
  assert (H2 : coordsAtPos caret_view (selection_main_head caret_view) (-1)
               = Normal (Some caret_rect)) by reflexivity.
  assert (H3 : scheduled shown_world = false) by (vm_compute; reflexivity).
  assert (H4 : pendingOptions shown_world = None) by (vm_compute; reflexivity).
  assert (H5 : lastHead shown_world = Some (selection_main_head caret_view))
    by (vm_compute; reflexivity).
  split; [exact H1|]. split; [exact H2|]. split; [exact H3|].
  split; [exact H4|]. split; [exact H5|].
  destruct (selectionchange_cycle_is_idle Z caret_view shown_world caret_rect
              H1 H2 H3 H4 H5) as (w2 & d & Hr & _ & Ha & Hw).
  exists w2, d. split; [exact Hr|]. split; [exact Ha | exact Hw].
Defined.

Lemma read_without_caret_witness :
  (hasFocus blurred_view = false \/ isCollapsedSelection blurred_view = false)
  /\ readMeasurement (with_coordsAtPos blurred_view (fun _ _ => Throw))
       (world (boot caret_view page0))
     = readMeasurement blurred_view (world (boot caret_view page0))
  /\ exists w' d,
       readMeasurement blurred_view (world (boot caret_view page0))
       = Normal (w', d)
       /\ visible d = false
       /\ options d = {| forcePosition := true; restartPhase := true |}.
Proof.
  assert (H : hasFocus blurred_view = false
              \/ isCollapsedSelection blurred_view = false)
    by (left; reflexivity).
  split; [exact H|].
  destruct (read_without_caret Z blurred_view (world (boot caret_view page0)) H)
    as (Hf & w' & d & Hr & Hv & _ & _ & _ & Ho & _).
  split; [exact (Hf (fun _ _ => Throw))|].
  exists w', d. split; [exact Hr|]. split; [exact Hv|].
  rewrite Ho. vm_compute. reflexivity.
Defined.

Lemma overlay_classes_kept_witness :
  reachable due_system
  /\ cursor_position (world due_system) = "absolute"
  /\ classList_contains VIRTUAL_CURSOR_CLASS
       (cursor_classList (world due_system)) = true.
Proof.
  split; [exact reachable_due_system|].
  destruct (overlay_classes_kept Z due_system reachable_due_system)
    as (H1 & _ & H3).
  split; [exact H1 | exact H3].
Defined.

Lemma only_destroy_touches_page_witness :
  let s' := with_world shown_then_blurred
              (scheduleMeasurement blurred_view position_options shown_world) in
  step EvScroll shown_then_blurred = Some s'
  /\ @EvScroll Z <> EvDestroy
  /\ page_frame (world shown_then_blurred) (world s').
Proof.
  intros s'.
  assert (E : step EvScroll shown_then_blurred = Some s')
    by (vm_compute; reflexivity).
  assert (Hne : @EvScroll Z <> EvDestroy) by discriminate.
  split; [exact E|]. split; [exact Hne|].
  exact (only_destroy_touches_page Z EvScroll shown_then_blurred s' E Hne).
Defined.

Lemma update_cycle_repaints_witness :
  docChanged selection_update || selectionSet selection_update
  || viewportChanged selection_update || geometryChanged selection_update
  || focusChanged selection_update = true
  /\ guard_ok caret_view = true
  /\ coordsAtPos caret_view (selection_main_head caret_view) (-1)
     = Normal (Some caret_rect)
  /\ exists w2 d,
       readMeasurement caret_view (update caret_view selection_update shown_world)
       = Normal (w2, d)
       /\ forcePosition (options d) = true
       /\ overlay_visible (applyMeasurement d w2) = true.
Proof.
  assert (H1 : docChanged selection_update || selectionSet selection_update
               || viewportChanged selection_update
               || geometryChanged selection_update
               || focusChanged selection_update = true) by reflexivity.
  assert (H2 : guard_ok caret_view = true) by reflexivity.
  assert (H3 : coordsAtPos caret_view (selection_main_head caret_view) (-1)
               = Normal (Some caret_rect)) by reflexivity.
  split; [exact H1|]. split; [exact H2|]. split; [exact H3|].
  destruct (update_cycle_repaints Z caret_view selection_update shown_world
              caret_rect H1 H2 H3) as (w2 & d & Hr & Hf & Hv & _).
  exists w2, d. split; [exact Hr|]. split; [exact Hf | exact Hv].
Defined.

Lemma update_then_flush_shows_witness :
  reachable shown_system
  /\ inflight shown_system = []
  /\ guard_ok (view shown_system) = true
  /\ coordsAtPos (view shown_system)
       (selection_main_head (view shown_system)) (-1)
     = Normal (Some caret_rect)
  /\ exists s',
       run [EvUpdate selection_update; EvRead; EvWrite] shown_system = Some s'
       /\ overlay_visible (world s') = true
       /\ inflight s' = [].
Proof.
  assert (H2 : inflight shown_system = []) by reflexivity.
  assert (H3 : docChanged selection_update || selectionSet selection_update
               || viewportChanged selection_update
               || geometryChanged selection_update
               || focusChanged selection_update = true) by reflexivity.
  assert (H4 : guard_ok (view shown_system) = true) by reflexivity.
  assert (H5 : coordsAtPos (view shown_system)
                 (selection_main_head (view shown_system)) (-1)
               = Normal (Some caret_rect)) by reflexivity.
  split; [exact reachable_shown_system|]. split; [exact H2|].
  split; [exact H4|]. split; [exact H5|].
  destruct (update_then_flush_shows Z shown_system selection_update caret_rect
              reachable_shown_system H2 H3 H4 H5)
    as (s' & Hr & Hv & _ & Hi & _).
  exists s'. split; [exact Hr|]. split; [exact Hv | exact Hi].
Defined.
